(** * OhioMapper_data: the layer server of [multiple_layers.py]

    A shallow embedding of the Flask application of [multiple_layers.py]:
    dataset discovery ([discover_shapefiles]), the start-up code of the
    module, the field mapping applied to every feature, and the request
    handler [get_geodata] with its cache.

    Python values are modelled as follows.
    - [str] is [string]; Python compares strings code point by code point,
      which on byte strings is the order of [String_as_OT.compare].
    - a [dict] is an association list in insertion order ([dict]); the keys
      of a dict are pairwise distinct, assignment to a present key keeps its
      position, assignment to a new key appends.
    - [geodata_cache] is only ever looked up and assigned by key, so it is a
      [gmap string string].
    - the operating system, geopandas and the [json] module are not part of
      the repository: they are the fields of the class [Platform].
    - [print] and the calls into the platform are recorded, in order, in the
      trace of the [world]. *)

From Stdlib Require Import ZArith Ascii String OrdersEx.
From stdpp Require Import gmap strings list sorting.

Local Open Scope Z_scope.

(** ** Strings *)

Module Str.

(** [s.endswith(suffix)] *)
Definition endswith (s suffix : string) : bool :=
  let n := String.length s in
  let m := String.length suffix in
  if (m <=? n)%nat
  then String.eqb (String.substring (n - m) m s) suffix
  else false.

(** [s.rfind(c)] for a one-character [c]: the highest index, or -1. *)
Fixpoint rfind_from (c : ascii) (s : string) (i last : Z) : Z :=
  match s with
  | EmptyString => last
  | String a s' => rfind_from c s' (i + 1) (if Ascii.eqb a c then i else last)
  end.

Definition rfind (c : ascii) (s : string) : Z := rfind_from c s 0 (-1).

(** [p[:i]] and [p[i:]] for [0 <= i]. *)
Definition take (i : Z) (p : string) : string :=
  String.substring 0 (Z.to_nat i) p.

Definition drop (i : Z) (p : string) : string :=
  String.substring (Z.to_nat i) (String.length p - Z.to_nat i) p.

(** The lexicographic order of [sorted] on strings. *)
Definition le (a b : string) : Prop := String_as_OT.compare a b <> Gt.

Definition concat (l : list string) : string := fold_right String.append EmptyString l.

End Str.

Global Instance str_le_dec a b : Decision (Str.le a b).
Proof. unfold Str.le. apply _. Defined.

(** ** [os.path.splitext] (posixpath) *)

(** The loop of [genericpath._splitext] that skips the leading dots of the
    file name: [true] when one of the [n] characters from [filenameIndex] on
    is not a dot, which is when the extension is split off. *)
Fixpoint has_non_dot (p : string) (filenameIndex : nat) (n : nat) : bool :=
  match n with
  | O => false
  | S n' =>
      match String.get filenameIndex p with
      | Some c => if Ascii.eqb c "."%char then has_non_dot p (S filenameIndex) n' else true
      | None => true
      end
  end.

Definition splitext (p : string) : string * string :=
  let sepIndex := Str.rfind "/"%char p in
  let dotIndex := Str.rfind "."%char p in
  if sepIndex <? dotIndex then
    if has_non_dot p (Z.to_nat (sepIndex + 1)) (Z.to_nat (dotIndex - (sepIndex + 1)))
    then (Str.take dotIndex p, Str.drop dotIndex p)
    else (p, EmptyString)
  else (p, EmptyString).

(** Whether some character of [s] satisfies [P]. *)
Fixpoint str_exists (P : ascii -> bool) (s : string) : bool :=
  match s with
  | EmptyString => false
  | String a s' => P a || str_exists P s'
  end.

(** ** Python dicts *)

Section Dict.
Context {V : Type}.

Definition dict := list (string * V).

(** [d.get(k)] *)
Fixpoint dict_get (d : dict) (k : string) : option V :=
  match d with
  | [] => None
  | (k', v) :: d' => if String.eqb k' k then Some v else dict_get d' k
  end.

(** [k in d] *)
Definition dict_mem (k : string) (d : dict) : bool :=
  match dict_get d k with Some _ => true | None => false end.

(** [d[k] = v] *)
Fixpoint dict_set (d : dict) (k : string) (v : V) : dict :=
  match d with
  | [] => [(k, v)]
  | (k', v') :: d' =>
      if String.eqb k' k then (k', v) :: d' else (k', v') :: dict_set d' k v
  end.

Definition dict_keys (d : dict) : list string := map fst d.

End Dict.

Arguments dict V : clear implicits.

(** ** Dataset discovery *)

Definition SHAPEFILE_FOLDER : string := "data".

(** The body of [discover_shapefiles] after the directory test: the loop over
    [os.listdir(directory)] and the final [sorted]. *)
Definition shapefile_names (listing : list string) : list string :=
  map (fun filename => fst (splitext filename))
      (filter (fun filename => Is_true (Str.endswith filename ".shp")) listing).

Definition sorted (l : list string) : list string := merge_sort Str.le l.


(** ** GeoJSON documents *)

(** A JSON value as [json.loads] builds it. A float is kept as the text of
    its [repr]: no function of the program looks inside a number. *)
#[warnings="-register-all"]
Inductive json : Type :=
| JNull
| JBool (b : bool)
| JInt (n : Z)
| JFloat (repr : string)
| JStr (s : string)
| JArr (items : list json)
| JObj (members : list (string * json)).

(** One element of [geodata_json['features']], with the members that
    [GeoDataFrame.to_json] gives a feature. *)
Record feature := Feature {
  feature_id : json;
  feature_type : string;
  properties : dict json;
  geometry : json
}.

(** [geodata_json]: the document of [json.loads(gdf.to_json())]; [members]
    holds the top-level members other than ["features"]. *)
Record feature_collection := FeatureCollection {
  members : dict json;
  features : list feature
}.

(** ** The field mapping of [get_geodata] *)

(** Truth value of a [str] and of the result of [FIELD_MAPPING.get]. *)
Definition str_truthy (s : string) : bool := negb (String.eqb s "").

Definition mapping_truthy (mapping : option (dict string)) : bool :=
  match mapping with
  | Some (_ :: _) => true
  | _ => false
  end.

(** The [if title_field and title_field in original_properties] statement. *)
Definition set_title (title_field : option string) (original_properties : dict json)
  : dict json :=
  match title_field with
  | Some tf =>
      if str_truthy tf then
        match dict_get original_properties tf with
        | Some v => dict_set [] "Title" v
        | None => []
        end
      else []
  | None => []
  end.

(** One iteration of [for original_key, new_key in mapping.items()]. *)
Definition rename_step (original_properties : dict json)
    (new_properties : dict json) (item : string * string) : dict json :=
  let '(original_key, new_key) := item in
  if String.eqb original_key "__title__" then new_properties
  else
    match dict_get original_properties original_key with
    | Some v => dict_set new_properties new_key v
    | None => new_properties
    end.

(** The record assigned to [feature['properties']]. *)
Definition new_properties (mapping : dict string) (original_properties : dict json)
  : dict json :=
  let title_field := dict_get mapping "__title__" in
  fold_left (rename_step original_properties) mapping
            (set_title title_field original_properties).

Definition map_feature (mapping : dict string) (f : feature) : feature :=
  {| feature_id := feature_id f;
     feature_type := feature_type f;
     properties := new_properties mapping (properties f);
     geometry := geometry f |}.

(** The [if mapping: ... else: ...] statement, without its [print]s. *)
Definition apply_field_mapping (mapping : option (dict string))
    (geodata_json : feature_collection) : feature_collection :=
  match mapping with
  | Some m =>
      if mapping_truthy mapping
      then {| members := members geodata_json;
              features := map (map_feature m) (features geodata_json) |}
      else geodata_json
  | None => geodata_json
  end.


(** Where an entry [k: v] of the mapped record can come from. *)
Definition title_from (mapping : dict string) (original : dict json)
    (k : string) (v : json) : Prop :=
  k = "Title" /\
  exists title_field, dict_get mapping "__title__" = Some title_field /\
                      dict_get original title_field = Some v.

Definition renamed_from (mapping : dict string) (original : dict json)
    (k : string) (v : json) : Prop :=
  exists original_key, (original_key, k) ∈ mapping /\ original_key <> "__title__" /\
                       dict_get original original_key = Some v.

Definition is_rename_entry (item : string * string) : bool :=
  negb (String.eqb (fst item) "__title__").

(** ** The platform: operating system, geopandas, json *)

(** The result of a call that may raise; [Raise e] carries [str(e)]. *)
Inductive outcome (A : Type) : Type :=
| Ok (a : A)
| Raise (e : string).

Arguments Ok {A} a.
Arguments Raise {A} e.

Class Platform := {
  (** the state of the file system *)
  fsys : Type;
  (** [geopandas.GeoDataFrame] *)
  GeoDataFrame : Type;
  (** [os.path.isdir(path)] *)
  isdir : fsys -> string -> bool;
  (** [os.listdir(path)]; raises [OSError] *)
  listdir : fsys -> string -> outcome (list string);
  (** [with open(path, 'w') as file: file.write(content)]; raises [IOError],
      and may have changed the file system even then *)
  write_text : fsys -> string -> string -> outcome unit * fsys;
  (** [gpd.read_file(path, encoding='utf-8')] *)
  read_file : fsys -> string -> outcome GeoDataFrame;
  (** [gdf.to_crs(epsg=4326)] *)
  to_crs : GeoDataFrame -> outcome GeoDataFrame;
  (** [json.loads(gdf.to_json())] *)
  to_geojson : GeoDataFrame -> outcome feature_collection;
  (** [json.dumps(geodata_json)] *)
  dumps : feature_collection -> string
}.

(** ** Responses *)

Inductive body : Type :=
| JsonBody (j : json)      (* [jsonify(j)] *)
| TextBody (s : string).   (* [response=s] *)

Record response := Response {
  status : Z;
  mimetype : string;
  content : body
}.

(** [jsonify(j), code] *)
Definition jsonify (j : json) (code : Z) : response :=
  {| status := code; mimetype := "application/json"; content := JsonBody j |}.

(** [app.response_class(response=s, status=code, mimetype=m)] *)
Definition response_class (s : string) (code : Z) (m : string) : response :=
  {| status := code; mimetype := m; content := TextBody s |}.

Definition error_body (msg : string) : json := JObj [("error", JStr msg)].

(** ** Observable events *)

(** The [print] statements of the module, one constructor each, with the
    values their f-strings interpolate. *)
Inductive message : Type :=
| MsgDirNotFound (directory : string)
| MsgDiscovered (shapefiles : list string)
| MsgProcessing (filename : string)
| MsgMappingDetails (field_details : dict string)
| MsgCreated (filename : string)
| MsgWriteError (filename e : string)
| MsgLoading (layer_name shapefile_path : string)
| MsgLayer (layer_name : string)
| MsgApplying (layer_name : string)
| MsgNoMapping (layer_name : string)   (* "Warning: No field mapping found ..." *)
| MsgSaved (file_name : string)
| MsgSaveError (e : string)
| MsgLoaded (layer_name : string)
| MsgCritical (layer_name e : string).

Inductive event : Type :=
| EIsdir (path : string)
| EListdir (path : string)
| EReadFile (path : string)
| EWrite (path content : string)
| EPrint (m : message)
| ETraceback.

Global Instance message_eq_dec : EqDecision message.
Proof. solve_decision. Defined.

Global Instance event_eq_dec : EqDecision event.
Proof. solve_decision. Defined.

Definition is_read (e : event) : bool :=
  match e with EReadFile _ => true | _ => false end.

Definition is_write (e : event) : bool :=
  match e with EWrite _ _ => true | _ => false end.

(** The number of [gpd.read_file] calls in a trace: the load counter. *)
Definition loads (t : list event) : nat := length (List.filter is_read t).

Definition writes (t : list event) : list event := List.filter is_write t.

(** ** The configuration shipped in the module *)

Module Shipped.

Definition FIELD_MAPPING : dict (dict string) :=
  [ ("Ohio_County_Boundaries",
      [("name", "County Name"); ("county_sea", "County Seat")]);
    ("Ohio_Senate_Districts_2024_to_2032",
      [("district", "Senate District #")]);
    ("Ohio_House_Districts_2024_to__2032",
      [("district", "House District #")]);
    ("Ohio_Municipal_Boundaries",
      [("municipali", "Municipality Name"); ("sq_mi", "Area (square miles)")]);
    ("Ohio_Township_Boundaries",
      [("twp_name", "Township Name"); ("sqmi_area", "Area (square miles)")]) ].

End Shipped.

(** [os.path.join(a, b)] (posixpath, two components) *)
Definition os_path_join (a b : string) : string :=
  if String.prefix "/" b then b
  else if String.eqb a "" || Str.endswith a "/" then a +:+ b
  else a +:+ "/" +:+ b.

Definition newline : string := String (ascii_of_nat 10) EmptyString.

(** The text that the start-up loop writes for one registry entry. *)
Definition placeholder_text (filename_key : string) (field_details : dict string) : string :=
  "This file is for " +:+ filename_key +:+ "." +:+ newline +:+
  match field_details with
  | _ :: _ =>
      "Field mappings:" +:+ newline +:+
      Str.concat (map (fun '(original_field, display_name) =>
                         "  - " +:+ original_field +:+ ": " +:+ display_name +:+ newline)
                      field_details)
  | [] => "No specific field mappings defined." +:+ newline
  end.

(** The write that the start-up loop attempts for one registry entry. *)
Definition placeholder_write (item : string * dict string) : event :=
  EWrite (fst item +:+ ".txt") (placeholder_text (fst item) (snd item)).

(** ** The route [/api/data/<layer_name>] *)

(** The rule of [@app.route('/api/data/<layer_name>')] uses the default
    converter of Flask, which matches one non-empty path segment: the text
    after [/api/data/] reaches [get_geodata] only when it is not empty and
    has no slash. *)
Definition route_matches (layerName : string) : bool :=
  negb (String.eqb layerName "") &&
  negb (str_exists (fun a => Ascii.eqb a "/") layerName).

(** The page of werkzeug's [NotFound], which Flask returns for a URL that no
    rule matches. *)
Definition not_found_page : string :=
  "<!doctype html>" +:+ newline +:+
  "<html lang=en>" +:+ newline +:+
  "<title>404 Not Found</title>" +:+ newline +:+
  "<h1>Not Found</h1>" +:+ newline +:+
  "<p>The requested URL was not found on the server. If you entered the URL manually please check your spelling and try again.</p>" +:+ newline.

Definition flask_not_found : response :=
  {| status := 404; mimetype := "text/html"; content := TextBody not_found_page |}.

(** ** The program *)

Section Server.
Context {Pl : Platform}.

(** The mutable state of the process and its environment: the file
    system, the module-level [geodata_cache], and what has been observed
    so far (oldest event first). *)
Record world := World {
  fs : fsys;
  geodata_cache : gmap string string;
  trace : list event
}.

(** Computations that change the world and may raise. Effects that
    happened before an exception stay. *)
Definition M (A : Type) : Type := world -> outcome A * world.

Definition ret {A} (a : A) : M A := fun w => (Ok a, w).

Definition bind {A B} (m : M A) (k : A -> M B) : M B :=
  fun w =>
    match m w with
    | (Ok a, w') => k a w'
    | (Raise e, w') => (Raise e, w')
    end.

(** [try: m except ... as e: handler e] *)
Definition try_except {A} (m : M A) (handler : string -> M A) : M A :=
  fun w =>
    match m w with
    | (Ok a, w') => (Ok a, w')
    | (Raise e, w') => handler e w'
    end.

Definition lift {A} (o : outcome A) : M A := fun w => (o, w).

Definition emit (e : event) : M unit :=
  fun w => (Ok tt, {| fs := fs w; geodata_cache := geodata_cache w;
                      trace := trace w ++ [e] |}).

Definition print (m : message) : M unit := emit (EPrint m).

Definition os_path_isdir (path : string) : M bool :=
  fun w => (Ok (isdir (fs w) path),
            {| fs := fs w; geodata_cache := geodata_cache w;
               trace := trace w ++ [EIsdir path] |}).

Definition os_listdir (path : string) : M (list string) :=
  fun w => (listdir (fs w) path,
            {| fs := fs w; geodata_cache := geodata_cache w;
               trace := trace w ++ [EListdir path] |}).

Definition gpd_read_file (path : string) : M GeoDataFrame :=
  fun w => (read_file (fs w) path,
            {| fs := fs w; geodata_cache := geodata_cache w;
               trace := trace w ++ [EReadFile path] |}).

Definition open_write (path text : string) : M unit :=
  fun w =>
    let '(r, fs') := write_text (fs w) path text in
    (r, {| fs := fs'; geodata_cache := geodata_cache w;
           trace := trace w ++ [EWrite path text] |}).

(** [geodata_cache.get(k)], for [k in geodata_cache] and [geodata_cache[k]] *)
Definition cache_lookup (k : string) : M (option string) :=
  fun w => (Ok (geodata_cache w !! k), w).

(** [geodata_cache[k] = v] *)
Definition cache_store (k v : string) : M unit :=
  fun w => (Ok tt, {| fs := fs w; geodata_cache := <[k := v]> (geodata_cache w);
                      trace := trace w |}).

Notation "'let*' x ':=' m 'in' k" := (bind m (fun x => k))
  (at level 10, x name, m at level 100, k at level 200).
Notation "m ';;' k" := (bind m (fun _ => k))
  (at level 100, k at level 200, right associativity).

(** *** [discover_shapefiles] *)

Definition discover_shapefiles (directory : string) : M (list string) :=
  let* is_dir := os_path_isdir directory in
  if negb is_dir then
    print (MsgDirNotFound directory) ;;
    ret []
  else
    let* listing := os_listdir directory in
    let shapefiles := shapefile_names listing in
    print (MsgDiscovered shapefiles) ;;
    ret (sorted shapefiles).

(** *** The module-level loop over [FIELD_MAPPING.items()] *)

Definition write_placeholder (item : string * dict string) : M unit :=
  let '(filename_key, field_details) := item in
  let filename := filename_key +:+ ".txt" in
  print (MsgProcessing filename) ;;
  print (MsgMappingDetails field_details) ;;
  try_except
    (open_write filename (placeholder_text filename_key field_details) ;;
     print (MsgCreated filename))
    (fun e => print (MsgWriteError filename e)).

Fixpoint for_each {A} (body : A -> M unit) (l : list A) : M unit :=
  match l with
  | [] => ret tt
  | x :: l' => body x ;; for_each body l'
  end.

Variable FIELD_MAPPING : dict (dict string).

(** Everything the module runs when it is imported; the result is
    [AVAILABLE_LAYERS]. *)
Definition startup : M (list string) :=
  let* available := discover_shapefiles SHAPEFILE_FOLDER in
  for_each write_placeholder FIELD_MAPPING ;;
  ret available.

(** The world in which the module starts: [geodata_cache = {}]. *)
Definition boot (fs0 : fsys) : world :=
  {| fs := fs0; geodata_cache := ∅; trace := [] |}.

(** *** [get_geodata] *)

Variable AVAILABLE_LAYERS : list string.

Definition shapefile_path (layer_name : string) : string :=
  os_path_join SHAPEFILE_FOLDER (layer_name +:+ ".shp").

(** The [if mapping: ... else: ...] statement with its [print]s. *)
Definition map_fields (layer_name : string) (mapping : option (dict string))
    (geodata_json : feature_collection) : M feature_collection :=
  (if mapping_truthy mapping
   then print (MsgApplying layer_name)
   else print (MsgNoMapping layer_name)) ;;
  ret (apply_field_mapping mapping geodata_json).

(** Lines 148 to 189: from the shapefile to the string that is cached. *)
Definition load_layer (layer_name shapefile_path : string) : M string :=
  print (MsgLoading layer_name shapefile_path) ;;
  let* gdf := gpd_read_file shapefile_path in
  let* gdf := lift (to_crs gdf) in
  print (MsgLayer layer_name) ;;
  let mapping := dict_get FIELD_MAPPING layer_name in
  let* geodata_json := lift (to_geojson gdf) in
  let* geodata_json := map_fields layer_name mapping geodata_json in
  ret (dumps geodata_json).

(** Lines 193 to 199: the copy of the payload written next to the program. *)
Definition save_copy (file_name processed_json_string : string) : M unit :=
  try_except
    (open_write file_name processed_json_string ;;
     print (MsgSaved file_name))
    (fun e => print (MsgSaveError e)).

Definition get_geodata (layer_name : string) : M response :=
  if negb (bool_decide (layer_name ∈ AVAILABLE_LAYERS)) then
    ret (jsonify (error_body "Layer not found") 404)
  else
    let* cached := cache_lookup layer_name in
    match cached with
    | Some payload => ret (response_class payload 200 "application/json")
    | None =>
        try_except
          (let* processed_json_string :=
             load_layer layer_name (shapefile_path layer_name) in
           cache_store layer_name processed_json_string ;;
           save_copy layer_name processed_json_string ;;
           print (MsgLoaded layer_name) ;;
           ret (response_class processed_json_string 200 "application/json"))
          (fun e =>
             print (MsgCritical layer_name e) ;;
             emit ETraceback ;;
             ret (jsonify (error_body ("Could not load data for layer: " +:+ layer_name)) 500))
    end.

(** *** [get_layers] *)

Definition get_layers : M response :=
  ret (jsonify (JArr (map JStr AVAILABLE_LAYERS)) 200).

(** *** [GET /api/data/<layerName>] *)

(** What Flask itself answers to [/api/data/<layerName>] when the rule does
    not match, without calling any code of the module: its [NotFound] page,
    or a redirect when merging doubled slashes gives a URL that matches. *)
Variable flask_answer : string -> response.

(** The request [GET /api/data/<layerName>], where [layerName] is the
    decoded text after [/api/data/] in the path. *)
Definition get_api_data (layerName : string) : M response :=
  if route_matches layerName
  then get_geodata layerName
  else ret (flask_answer layerName).

(** *** The life of the process after start-up *)

(** What happens to a running server: a request arrives and is served, or
    somebody else changes the file system. *)
Inductive action : Type :=
| Request (layer_name : string)
| FsChange (new_fs : fsys).

Definition perform (a : action) (w : world) : world :=
  match a with
  | Request layer_name => snd (get_geodata layer_name w)
  | FsChange new_fs =>
      {| fs := new_fs; geodata_cache := geodata_cache w; trace := trace w |}
  end.

Definition run (actions : list action) (w : world) : world :=
  fold_left (fun w a => perform a w) actions w.

End Server.

Arguments world {_}.
Arguments M {_} A.

Arguments action {_}.

(** The world [w] after the events [evs]. *)
Definition log {Pl : Platform} (w : world) (evs : list event) : world :=
  {| fs := fs w; geodata_cache := geodata_cache w; trace := trace w ++ evs |}.

(** The events of [load_layer] up to the point it has reached: after the
    call of [gpd.read_file], after [print(layer_name)], and at its end. *)
Definition read_events (layer_name path : string) : list event :=
  [EPrint (MsgLoading layer_name path); EReadFile path].

Definition parsed_events (layer_name path : string) : list event :=
  read_events layer_name path ++ [EPrint (MsgLayer layer_name)].

Definition mapped_events (layer_name path : string) (mapping : option (dict string))
  : list event :=
  parsed_events layer_name path ++
  [EPrint (if mapping_truthy mapping then MsgApplying layer_name
           else MsgNoMapping layer_name)].

(** The world after the payload has been cached in [w] and [save_copy] and
    the last [print] have run. *)
Definition after_save {Pl : Platform} (w : world) (layer_name payload : string) : world :=
  let '(r, fs') := write_text (fs w) layer_name payload in
  {| fs := fs';
     geodata_cache := <[layer_name := payload]> (geodata_cache w);
     trace := trace w ++
              [EWrite layer_name payload;
               EPrint (match r with
                       | Ok _ => MsgSaved layer_name
                       | Raise e => MsgSaveError e
                       end);
               EPrint (MsgLoaded layer_name)] |}.

Section Serving.
Context {Pl : Platform}.
Variable FIELD_MAPPING : dict (dict string).
Variable AVAILABLE_LAYERS : list string.

(** The four ways in which a request is served. *)
Inductive served (layer_name : string) (w : world) : response -> world -> Prop :=
| served_not_found :
    layer_name ∉ AVAILABLE_LAYERS ->
    served layer_name w (jsonify (error_body "Layer not found") 404) w
| served_hit payload :
    layer_name ∈ AVAILABLE_LAYERS ->
    geodata_cache w !! layer_name = Some payload ->
    served layer_name w (response_class payload 200 "application/json") w
| served_failure e w1 :
    layer_name ∈ AVAILABLE_LAYERS ->
    geodata_cache w !! layer_name = None ->
    load_layer FIELD_MAPPING layer_name (shapefile_path layer_name) w = (Raise e, w1) ->
    served layer_name w
      (jsonify (error_body ("Could not load data for layer: " +:+ layer_name)) 500)
      (log w1 [EPrint (MsgCritical layer_name e); ETraceback])
| served_loaded payload w1 :
    layer_name ∈ AVAILABLE_LAYERS ->
    geodata_cache w !! layer_name = None ->
    load_layer FIELD_MAPPING layer_name (shapefile_path layer_name) w = (Ok payload, w1) ->
    served layer_name w (response_class payload 200 "application/json")
      (after_save w1 layer_name payload).

End Serving.

(** ** Requests served by several threads *)

(** The development server of [app.run] serves every request in a thread of
    its own, and the module has no lock. A thread is modelled by the point
    it has reached in [get_geodata]; one step of a thread runs, without
    interruption, the statements up to the next point. *)
Section Threads.
Context {Pl : Platform}.
Variable FIELD_MAPPING : dict (dict string).
Variable AVAILABLE_LAYERS : list string.

Inductive thread : Type :=
| Arrived (layer_name : string)            (* before line 134 *)
| Missed (layer_name : string)             (* lines 134-143 done: not cached *)
| Loaded (layer_name payload : string)     (* lines 146-189 done *)
| Stored (layer_name payload : string)     (* line 190 done *)
| Failed (layer_name e : string)           (* an exception is on its way to line 208 *)
| Done (r : response).

Definition thread_step (t : thread) (w : world) : thread * world :=
  match t with
  | Arrived layer_name =>
      if negb (bool_decide (layer_name ∈ AVAILABLE_LAYERS)) then
        (Done (jsonify (error_body "Layer not found") 404), w)
      else
        match geodata_cache w !! layer_name with
        | Some payload => (Done (response_class payload 200 "application/json"), w)
        | None => (Missed layer_name, w)
        end
  | Missed layer_name =>
      match load_layer FIELD_MAPPING layer_name (shapefile_path layer_name) w with
      | (Ok payload, w') => (Loaded layer_name payload, w')
      | (Raise e, w') => (Failed layer_name e, w')
      end
  | Loaded layer_name payload =>
      (Stored layer_name payload, snd (cache_store layer_name payload w))
  | Stored layer_name payload =>
      (Done (response_class payload 200 "application/json"),
       snd (bind (save_copy layer_name payload)
                 (fun _ => print (MsgLoaded layer_name)) w))
  | Failed layer_name e =>
      (Done (jsonify (error_body ("Could not load data for layer: " +:+ layer_name)) 500),
       snd (bind (print (MsgCritical layer_name e)) (fun _ => emit ETraceback) w))
  | Done r => (Done r, w)
  end.

(** The statements a thread still has to run, at most. *)
Definition remaining (t : thread) : nat :=
  match t with
  | Arrived _ => 4
  | Missed _ => 3
  | Loaded _ _ => 2
  | Stored _ _ => 1
  | Failed _ _ => 1
  | Done _ => 0
  end.

(** The scheduler lets thread [i] take a step. *)
Definition step_at (i : nat) (s : list thread * world) : list thread * world :=
  match fst s !! i with
  | Some t => let '(t', w') := thread_step t (snd s) in (<[i := t']> (fst s), w')
  | None => s
  end.

Definition exec (schedule : list nat) (s : list thread * world) : list thread * world :=
  fold_left (fun s i => step_at i s) schedule s.

(** Whether a thread may still call [gpd.read_file]. *)
Definition pending (t : thread) : nat :=
  match t with
  | Arrived _ | Missed _ => 1
  | _ => 0
  end.

(** The response that goes with the outcome [o] of loading a layer. *)
Definition outcome_response (layer_name : string) (o : outcome string) : response :=
  match o with
  | Ok payload => response_class payload 200 "application/json"
  | Raise e =>
      jsonify (error_body ("Could not load data for layer: " +:+ layer_name)) 500
  end.

(** A thread that serves [layer_name] and whose load, if it has loaded,
    had the outcome [o]. *)
Definition thread_ok (layer_name : string) (o : outcome string) (t : thread) : Prop :=
  match t with
  | Arrived l | Missed l => l = layer_name
  | Loaded l payload | Stored l payload => l = layer_name /\ o = Ok payload
  | Failed l e => l = layer_name /\ o = Raise e
  | Done r => r = outcome_response layer_name o
  end.

(** What holds of the threads and the world [s] at every moment when all
    threads serve [layer_name] and started in the world [w0]: the dataset
    reads as it did, the cache holds nothing but the payload, and every
    thread agrees with the outcome of a load in [w0]. *)
Definition consistent (layer_name : string) (w0 : world)
    (s : list thread * world) : Prop :=
  let o := fst (load_layer FIELD_MAPPING layer_name (shapefile_path layer_name) w0) in
  read_file (fs (snd s)) (shapefile_path layer_name)
  = read_file (fs w0) (shapefile_path layer_name) /\
  (forall payload, geodata_cache (snd s) !! layer_name = Some payload ->
                   o = Ok payload) /\
  Forall (thread_ok layer_name o) (fst s).

End Threads.

Arguments thread : clear implicits.

(** ** A small platform on which the program can be run *)

Module Toy.

(** A disk with one data directory. *)
Record disk := Disk {
  data_dir : option (list string);      (* the entries of ['data'], if it exists *)
  datasets : dict feature_collection;   (* what [gpd.read_file] finds at a path *)
  files : dict string;                  (* the text files, by path *)
  locked : list string                  (* paths that cannot be opened for writing *)
}.

Definition show (v : json) : string :=
  match v with
  | JStr s => s
  | _ => "?"
  end.

Definition show_feature (f : feature) : string :=
  Str.concat (map (fun '(k, v) => k +:+ "=" +:+ show v +:+ ";") (properties f)).

Definition show_collection (g : feature_collection) : string :=
  Str.concat (map (fun f => "[" +:+ show_feature f +:+ "]") (features g)).

#[global] Instance platform : Platform := {|
  fsys := disk;
  GeoDataFrame := feature_collection;
  isdir d path :=
    match data_dir d with
    | Some _ => String.eqb path "data"
    | None => false
    end;
  listdir d path :=
    match data_dir d with
    | Some l => if String.eqb path "data" then Ok l else Raise "Not a directory"
    | None => Raise "No such file or directory"
    end;
  write_text d path text :=
    if bool_decide (path ∈ locked d) then (Raise "Permission denied", d)
    else (Ok tt, {| data_dir := data_dir d; datasets := datasets d;
                    files := dict_set (files d) path text; locked := locked d |});
  read_file d path :=
    match dict_get (datasets d) path with
    | Some g => Ok g
    | None => Raise "No such file"
    end;
  to_crs g := Ok g;
  to_geojson g := Ok g;
  dumps := show_collection
|}.

(** The world in which the module starts on disk [d]. *)
Definition boot (d : disk) : world := boot (Pl := platform) d.

Definition point (x y : Z) : json :=
  JObj [("type", JStr "Point"); ("coordinates", JArr [JInt x; JInt y])].

Definition senate : feature_collection :=
  {| members := [("type", JStr "FeatureCollection")];
     features :=
       [ {| feature_id := JStr "0"; feature_type := "Feature";
            properties := [("district", JStr "12"); ("other", JStr "ignored")];
            geometry := point 1 2 |} ] |}.

Definition counties : feature_collection :=
  {| members := [("type", JStr "FeatureCollection")];
     features :=
       [ {| feature_id := JStr "0"; feature_type := "Feature";
            properties := [("name", JStr "Franklin")];
            geometry := point 3 4 |} ] |}.

Definition county_policy : dict string :=
  [("__title__", "name"); ("name", "County Name")].

(** A policy with an entry displayed as "Title". *)
Definition titled_policy : dict string :=
  [("__title__", "name"); ("kind", "Title")].

Definition disk0 : disk :=
  {| data_dir := Some ["b.shp"; "notes.txt"; "a.shp"; "a.dbf"];
     datasets := [("data/a.shp", senate)];
     files := [];
     locked := [] |}.

(** The registry and the layers of a server started on [disk0]. *)
Definition registry : dict (dict string) :=
  [("a", [("district", "Senate District #")])].

Definition layers : list string := ["a"; "b"].

(** The same directory, listed in another order. *)
Definition disk1 : disk :=
  {| data_dir := Some ["a.dbf"; "a.shp"; "b.shp"; "notes.txt"];
     datasets := [("data/a.shp", senate)];
     files := [];
     locked := [] |}.

(** A disk on which both layers can be read. *)
Definition disk2 : disk :=
  {| data_dir := Some ["b.shp"; "notes.txt"; "a.shp"; "a.dbf"];
     datasets := [("data/a.shp", senate); ("data/b.shp", counties)];
     files := [];
     locked := ["b"] |}.

(** A directory of hidden files. *)
Definition dotted : disk :=
  {| data_dir := Some [".shp"; ".shp.shp"];
     datasets := [];
     files := [];
     locked := [] |}.

(** A layer with two area fields. *)
Definition township : feature_collection :=
  {| members := [("type", JStr "FeatureCollection")];
     features :=
       [ {| feature_id := JStr "0"; feature_type := "Feature";
            properties := [("sq_mi", JStr "10"); ("sqmi_area", JStr "11");
                           ("other", JStr "ignored")];
            geometry := point 5 6 |} ] |}.

(** A disk without a data directory. *)
Definition nodata : disk :=
  {| data_dir := None; datasets := []; files := []; locked := [] |}.

(** The platform of a machine on which the data directory exists but may not
    be listed. *)
Definition unlistable : Platform := {|
  fsys := disk;
  GeoDataFrame := feature_collection;
  isdir d path := String.eqb path "data";
  listdir d path := Raise "Permission denied";
  write_text := write_text (Platform := platform);
  read_file := read_file (Platform := platform);
  to_crs g := Ok g;
  to_geojson g := Ok g;
  dumps := show_collection
|}.

(** A registry in which layer ["b"] has an empty policy, and one in which it
    has a policy of its own. *)
Definition registry_empty_b : dict (dict string) :=
  [("a", [("district", "Senate District #")]); ("b", [])].

Definition registry_with_b : dict (dict string) :=
  [("a", [("district", "Senate District #")]); ("b", [("name", "County Name")])].

End Toy.


(** * Properties *)

(** Settles a closed decidable proposition by evaluating its decision
    procedure. *)
Ltac by_computation :=
  match goal with
  | |- ?P => apply (bool_decide_unpack P); vm_compute; exact I
  end.

(** ** The library functions on small inputs *)

Example splitext_layer :
  splitext "Ohio_County_Boundaries.shp" = ("Ohio_County_Boundaries", ".shp").
Proof. reflexivity. Qed.

Example splitext_last_extension : splitext "a.b.shp" = ("a.b", ".shp").
Proof. reflexivity. Qed.

Example splitext_leading_dot : splitext ".shp" = (".shp", "").
Proof. reflexivity. Qed.

Example splitext_directory_dot : splitext "a.b/c" = ("a.b/c", "").
Proof. reflexivity. Qed.

Example endswith_shp :
  Str.endswith "a.shp" ".shp" = true /\ Str.endswith "a.shx" ".shp" = false /\
  Str.endswith "shp" ".shp" = false.
Proof. repeat split. Qed.

Example os_path_join_layer : os_path_join "data" "a.shp" = "data/a.shp".
Proof. reflexivity. Qed.

Example sorted_by_code_point :
  sorted ["b"; "B"; "a"; "_"; "1"; "ab"; ""] = [""; "1"; "B"; "_"; "a"; "ab"; "b"].
Proof. vm_compute. reflexivity. Qed.

Example dict_set_keeps_position :
  dict_set [("a", 1); ("b", 2)] "a" 3 = [("a", 3); ("b", 2)] /\
  dict_set [("a", 1); ("b", 2)] "c" 3 = [("a", 1); ("b", 2); ("c", 3)].
Proof. split; reflexivity. Qed.

(** ** The order of [sorted] *)

Lemma str_compare_lt_gt a b :
  String_as_OT.compare a b = Lt -> String_as_OT.compare b a = Gt.
Proof.
  intros Hab.
  destruct (String_as_OT.compare_spec b a) as [Heq | Hlt | Hgt]; [| | reflexivity].
  - hnf in Heq. subst b. exfalso.
    exact (StrictOrder_Irreflexive (R := String_as_OT.lt) a Hab).
  - exfalso. apply (StrictOrder_Irreflexive (R := String_as_OT.lt) a).
    exact (StrictOrder_Transitive (R := String_as_OT.lt) a b a Hab Hlt).
Qed.

Global Instance str_le_total : Total Str.le.
Proof.
  intros a b. unfold Str.le.
  destruct (String_as_OT.compare_spec a b) as [Heq | Hlt | Hgt].
  - left. discriminate.
  - left. discriminate.
  - right. unfold String_as_OT.lt in Hgt. rewrite Hgt. discriminate.
Qed.

Global Instance str_le_antisym : AntiSymm eq Str.le.
Proof.
  intros a b Hab Hba. unfold Str.le in *.
  destruct (String_as_OT.compare_spec a b) as [Heq | Hlt | Hgt].
  - exact Heq.
  - exfalso. apply Hba. apply str_compare_lt_gt. exact Hlt.
  - congruence.
Qed.

Global Instance str_le_trans : Transitive Str.le.
Proof.
  intros a b c Hab Hbc. unfold Str.le in *.
  destruct (String_as_OT.compare_spec a b) as [Heq | Hlt | Hgt];
    [hnf in Heq; subst; assumption | | congruence].
  destruct (String_as_OT.compare_spec b c) as [Heq' | Hlt' | Hgt'];
    [hnf in Heq'; subst | | congruence].
  - unfold String_as_OT.lt in Hlt. rewrite Hlt. discriminate.
  - pose proof (StrictOrder_Transitive (R := String_as_OT.lt) a b c Hlt Hlt') as Hac.
    unfold String_as_OT.lt in Hac. rewrite Hac. discriminate.
Qed.

Lemma sorted_Sorted l : Sorted Str.le (sorted l).
Proof. unfold sorted. apply Sorted_merge_sort; apply _. Qed.

Lemma sorted_Permutation l : sorted l ≡ₚ l.
Proof. unfold sorted. apply merge_sort_Permutation. Qed.

(** [sorted] does not depend on the order in which the names arrive. *)
Lemma sorted_respects_Permutation l1 l2 : l1 ≡ₚ l2 -> sorted l1 = sorted l2.
Proof.
  intros Hp.
  apply (Sorted_unique Str.le); [apply sorted_Sorted .. |].
  rewrite !sorted_Permutation. exact Hp.
Qed.

Lemma shapefile_names_Permutation l1 l2 :
  l1 ≡ₚ l2 -> shapefile_names l1 ≡ₚ shapefile_names l2.
Proof.
  intros Hp. unfold shapefile_names.
  apply Permutation_map. rewrite Hp. reflexivity.
Qed.

Lemma elem_of_shapefile_names listing x :
  x ∈ shapefile_names listing <->
  exists filename, filename ∈ listing /\ Str.endswith filename ".shp" = true
                   /\ x = fst (splitext filename).
Proof.
  unfold shapefile_names. rewrite list_elem_of_In, in_map_iff. split.
  - intros (f & Hx & Hin). apply list_elem_of_In, list_elem_of_filter in Hin.
    destruct Hin as [Hends Hin]. exists f. repeat split; auto.
    apply Is_true_true. exact Hends.
  - intros (f & Hin & Hends & Hx). exists f. split; [auto |].
    apply list_elem_of_In, list_elem_of_filter. split; [| exact Hin].
    apply Is_true_true. exact Hends.
Qed.

(** When [splitext] really takes the [".shp"] off every selected name, distinct
    names give distinct layers. *)
Lemma shapefile_names_NoDup listing :
  NoDup listing ->
  (forall filename, filename ∈ listing -> Str.endswith filename ".shp" = true ->
                    filename = fst (splitext filename) +:+ ".shp") ->
  NoDup (shapefile_names listing).
Proof.
  intros Hnd Hstrip. unfold shapefile_names.
  apply (NoDup_fmap_2_strong (fun filename => fst (splitext filename))).
  - intros f1 f2 H1 H2 Heq.
    apply list_elem_of_filter in H1 as [He1 H1], H2 as [He2 H2].
    apply Is_true_true in He1, He2.
    rewrite (Hstrip f1 H1 He1), (Hstrip f2 H2 He2). cbv beta in Heq. rewrite Heq. reflexivity.
  - apply NoDup_filter. exact Hnd.
Qed.

(** ** Dicts *)

Section DictFacts.
Context {V : Type}.
Implicit Types (d : dict V) (k : string) (v : V).

Lemma dict_get_set_eq d k v : dict_get (dict_set d k v) k = Some v.
Proof.
  induction d as [| [k' v'] d IH]; simpl.
  - rewrite String.eqb_refl. reflexivity.
  - destruct (String.eqb_spec k' k) as [-> | Hne]; simpl.
    + rewrite String.eqb_refl. reflexivity.
    + apply String.eqb_neq in Hne. rewrite Hne. exact IH.
Qed.

Lemma dict_get_set_ne d k k' v :
  k <> k' -> dict_get (dict_set d k v) k' = dict_get d k'.
Proof.
  intros Hne. induction d as [| [k0 v0] d IH]; simpl.
  - apply String.eqb_neq in Hne. rewrite Hne. reflexivity.
  - destruct (String.eqb_spec k0 k) as [-> | Hne0]; simpl.
    + apply String.eqb_neq in Hne. rewrite Hne. reflexivity.
    + rewrite IH. reflexivity.
Qed.

Lemma dict_get_set d k k' v v' :
  dict_get (dict_set d k v) k' = Some v' ->
  (k' = k /\ v' = v) \/ (k' <> k /\ dict_get d k' = Some v').
Proof.
  destruct (String.eqb_spec k k') as [<- | Hne].
  - rewrite dict_get_set_eq. intros [= ->]. left. split; reflexivity.
  - rewrite dict_get_set_ne by exact Hne. intros Hget. right. split; [congruence | exact Hget].
Qed.

(** Assignment keeps the first key of a non-empty dict in first place. *)
Lemma dict_set_head d k v k0 v0 :
  exists v1 rest, dict_set ((k0, v0) :: d) k v = (k0, v1) :: rest.
Proof.
  simpl. destruct (String.eqb k0 k); eauto.
Qed.

Lemma dict_get_Some_nonempty d k v : dict_get d k = Some v -> d <> [].
Proof. destruct d; [discriminate | discriminate]. Qed.

End DictFacts.

(** An invariant of a [for] loop over a list. *)
Lemma fold_left_invariant {A B} (P : A -> Prop) (f : A -> B -> A) (l : list B) (a : A) :
  P a -> (forall a b, b ∈ l -> P a -> P (f a b)) -> P (fold_left f l a).
Proof.
  revert a. induction l as [| b l IH]; intros a Ha Hstep; simpl.
  - exact Ha.
  - apply IH.
    + apply Hstep; [left | exact Ha].
    + intros a' b' Hin. apply Hstep. right. exact Hin.
Qed.

(** ** The field mapping *)

Lemma set_title_origin mapping original k v :
  dict_get (set_title (dict_get mapping "__title__") original) k = Some v ->
  title_from mapping original k v.
Proof.
  unfold set_title.
  destruct (dict_get mapping "__title__") as [tf |] eqn:Htf; [| discriminate].
  destruct (str_truthy tf); [| discriminate].
  destruct (dict_get original tf) as [v0 |] eqn:Hv0; [| discriminate].
  intros Hget. apply dict_get_set in Hget as [[-> ->] | [_ Hget]]; [| discriminate].
  split; [reflexivity |]. exists tf. split; [exact Htf | exact Hv0].
Qed.

Lemma new_properties_origin mapping original k v :
  dict_get (new_properties mapping original) k = Some v ->
  title_from mapping original k v \/ renamed_from mapping original k v.
Proof.
  unfold new_properties. revert k v.
  apply (fold_left_invariant
           (fun new => forall k v, dict_get new k = Some v ->
              title_from mapping original k v \/ renamed_from mapping original k v)).
  - intros k v Hget. left. apply set_title_origin. exact Hget.
  - intros new [original_key new_key] Hin IH k v. unfold rename_step.
    destruct (String.eqb_spec original_key "__title__") as [-> | Hne]; [apply IH |].
    destruct (dict_get original original_key) as [v0 |] eqn:Hv0; [| apply IH].
    intros Hget. apply dict_get_set in Hget as [[-> ->] | [_ Hget]]; [| apply IH; exact Hget].
    right. exists original_key. repeat split; assumption.
Qed.

Lemma rename_loop_copied original (l : dict string) init original_key new_key v :
  (original_key, new_key) ∈ l ->
  original_key <> "__title__" ->
  dict_get original original_key = Some v ->
  (forall other, (other, new_key) ∈ l -> other <> "__title__" ->
                 dict_mem other original = true -> other = original_key) ->
  dict_get (fold_left (rename_step original) l init) new_key = Some v.
Proof.
  intros Hin Hne Hv. revert init Hin.
  induction l as [| [ok nk] l IH]; intros init Hin Huniq.
  - inversion Hin.
  - cbn [fold_left]. apply elem_of_cons in Hin as [Heq | Hin].
    + injection Heq as <- <-.
      apply (fold_left_invariant (fun new => dict_get new new_key = Some v)).
      * unfold rename_step. apply String.eqb_neq in Hne as Hneb. rewrite Hneb, Hv.
        apply dict_get_set_eq.
      * intros new [ok' nk'] Hin' Hnew. unfold rename_step.
        destruct (String.eqb_spec ok' "__title__") as [-> | Hne']; [exact Hnew |].
        destruct (dict_get original ok') as [v' |] eqn:Hv'; [| exact Hnew].
        destruct (String.eqb_spec nk' new_key) as [-> | Hnk].
        -- assert (ok' = original_key) as ->.
           { apply Huniq; [right; exact Hin' | exact Hne' |].
             unfold dict_mem. rewrite Hv'. reflexivity. }
           rewrite Hv in Hv'. injection Hv' as <-. apply dict_get_set_eq.
        -- rewrite dict_get_set_ne by exact Hnk. exact Hnew.
    + apply IH; [exact Hin |]. intros other Hother. apply Huniq. right. exact Hother.
Qed.

Lemma new_properties_copied mapping original original_key new_key v :
  (original_key, new_key) ∈ mapping ->
  original_key <> "__title__" ->
  dict_get original original_key = Some v ->
  (forall other, (other, new_key) ∈ mapping -> other <> "__title__" ->
                 dict_mem other original = true -> other = original_key) ->
  dict_get (new_properties mapping original) new_key = Some v.
Proof.
  intros Hin Hne Hv Huniq. unfold new_properties.
  apply (rename_loop_copied original mapping _ original_key); assumption.
Qed.

(** The rename loop runs over the entries other than ["__title__"]. *)
Lemma rename_loop_skips_title original mapping init :
  fold_left (rename_step original) mapping init =
  fold_left (rename_step original) (List.filter is_rename_entry mapping) init.
Proof.
  revert init. induction mapping as [| [ok nk] l IH]; intros init; simpl; [reflexivity |].
  unfold is_rename_entry at 1. simpl.
  destruct (String.eqb ok "__title__") eqn:Hok; simpl.
  - apply IH.
  - rewrite Hok. apply IH.
Qed.

Lemma apply_field_mapping_features m g :
  m <> [] ->
  features (apply_field_mapping (Some m) g) = map (map_feature m) (features g).
Proof. destruct m; [congruence | reflexivity]. Qed.

Lemma rename_loop_last original (before after : dict string) init original_key new_key v :
  original_key <> "__title__" ->
  dict_get original original_key = Some v ->
  (forall other, (other, new_key) ∈ after -> other <> "__title__" ->
                 dict_get original other = None \/ other = original_key) ->
  dict_get (fold_left (rename_step original)
                      (before ++ (original_key, new_key) :: after) init) new_key
  = Some v.
Proof.
  intros Hne Hv Hlater. rewrite fold_left_app. cbn [fold_left].
  apply (fold_left_invariant (fun new => dict_get new new_key = Some v)).
  - unfold rename_step. apply String.eqb_neq in Hne as Hneb. rewrite Hneb, Hv.
    apply dict_get_set_eq.
  - intros new [ok' nk'] Hin' Hnew. unfold rename_step.
    destruct (String.eqb_spec ok' "__title__") as [-> | Hne']; [exact Hnew |].
    destruct (dict_get original ok') as [v' |] eqn:Hv'; [| exact Hnew].
    destruct (String.eqb_spec nk' new_key) as [-> | Hnk].
    + destruct (Hlater ok' Hin' Hne') as [Habs | ->]; [congruence |].
      rewrite Hv in Hv'. injection Hv' as <-. apply dict_get_set_eq.
    + rewrite dict_get_set_ne by exact Hnk. exact Hnew.
Qed.

(** C4 (amended). For the policy [{"district": "Senate District #"}] a
    feature with attributes [{"district": "12", "other": "ignored"}] is
    mapped to exactly [{"Senate District #": "12"}]. A layer registered with
    the empty policy is left as it is, like a layer without a policy. In
    general, for a layer whose policy is not empty, every entry of a mapped
    feature is either the "Title" entry or the value of an attribute named
    in the policy, under the display name the policy gives it; and of the
    entries of the policy with one display name whose attribute the feature
    has, the last one gives the value: an attribute that an entry names is
    found under the display name unless a later entry with that display name
    names another attribute that the feature has. *)
Theorem C4_mapping_renames_and_drops :
  (forall mem fid ftype geom,
     apply_field_mapping (Some [("district", "Senate District #")])
       {| members := mem;
          features := [ {| feature_id := fid; feature_type := ftype;
                           properties := [("district", JStr "12"); ("other", JStr "ignored")];
                           geometry := geom |} ] |}
     = {| members := mem;
          features := [ {| feature_id := fid; feature_type := ftype;
                           properties := [("Senate District #", JStr "12")];
                           geometry := geom |} ] |})
  /\
  (forall g : feature_collection,
     apply_field_mapping (Some []) g = g /\ apply_field_mapping None g = g)
  /\
  (forall (m : dict string) (g : feature_collection) (i : nat) (f : feature),
     m <> [] ->
     features g !! i = Some f ->
     exists f',
       features (apply_field_mapping (Some m) g) !! i = Some f' /\
       (forall k v, dict_get (properties f') k = Some v ->
                    title_from m (properties f) k v \/ renamed_from m (properties f) k v) /\
       (forall before after original_key new_key v,
          m = before ++ (original_key, new_key) :: after ->
          original_key <> "__title__" ->
          dict_get (properties f) original_key = Some v ->
          (forall other, (other, new_key) ∈ after -> other <> "__title__" ->
                         dict_get (properties f) other = None \/ other = original_key) ->
          dict_get (properties f') new_key = Some v)).
Proof.
  split; [| split].
  - intros mem fid ftype geom. reflexivity.
  - intros g. split; reflexivity.
  - intros m g i f Hm Hf. exists (map_feature m f). split; [| split].
    + rewrite apply_field_mapping_features by exact Hm.
      change (map (map_feature m) (features g)) with (map_feature m <$> features g).
      rewrite list_lookup_fmap, Hf. reflexivity.
    + intros k v. apply new_properties_origin.
    + intros before after original_key new_key v -> Hne Hv Hlater.
      simpl. unfold new_properties. apply rename_loop_last; assumption.
Qed.

Lemma C4_mapping_renames_and_drops_witness :
  exists f',
    features (apply_field_mapping (Some [("sq_mi", "Area"); ("sqmi_area", "Area")])
                Toy.township) !! 0%nat = Some f' /\
    (forall k v, dict_get (properties f') k = Some v ->
                 k = "Area" /\ (v = JStr "10" \/ v = JStr "11")) /\
    dict_get (properties f') "Area" = Some (JStr "11").
Proof.
  destruct (proj2 (proj2 C4_mapping_renames_and_drops)
              [("sq_mi", "Area"); ("sqmi_area", "Area")] Toy.township 0%nat
              {| feature_id := JStr "0"; feature_type := "Feature";
                 properties := [("sq_mi", JStr "10"); ("sqmi_area", JStr "11");
                                ("other", JStr "ignored")];
                 geometry := Toy.point 5 6 |})
    as (f' & Hf' & Hdrop & Hcopy).
  - discriminate.
  - reflexivity.
  - exists f'. split; [exact Hf' | split].
    + intros k v Hk. destruct (Hdrop k v Hk) as [[_ (tf & Htf & _)] | (ok & Hin & _ & Hv)].
      * discriminate.
      * rewrite !elem_of_cons, elem_of_nil in Hin.
        destruct Hin as [Heq | [Heq | []]]; injection Heq as -> ->;
          simpl in Hv; injection Hv as <-; auto.
    + apply (Hcopy [("sq_mi", "Area")] [] "sqmi_area").
      * reflexivity.
      * discriminate.
      * reflexivity.
      * intros other Hin. exfalso. exact (not_elem_of_nil _ Hin).
Defined.

(** C4, as stated, fails twice. A layer registered with the empty policy is
    treated as having none, so nothing is dropped; and of two entries with
    one display name only the later value is kept. *)
Lemma C4_counterexample :
  apply_field_mapping (Some []) Toy.senate = Toy.senate /\
  (exists f, features (apply_field_mapping (Some []) Toy.senate) !! 0%nat = Some f /\
             dict_get (properties f) "other" = Some (JStr "ignored")) /\
  new_properties [("sq_mi", "Area"); ("sqmi_area", "Area")]
                 [("sq_mi", JStr "10"); ("sqmi_area", JStr "11")]
    = [("Area", JStr "11")].
Proof.
  split; [reflexivity | split; [| reflexivity]].
  eexists. split; reflexivity.
Qed.

(** C5 (amended). With the title designator ["name"] and the mapping
    [{"name": "County Name"}], the attributes [{"name": "Franklin"}] become
    exactly [{"Title": "Franklin", "County Name": "Franklin"}]. In general,
    when the policy designates a non-empty title field that the feature has,
    the mapped record is built by setting "Title" to that field's value first
    and then running the rename loop over the entries other than the
    designator; "Title" stays the first key, and it still holds the field's
    value at the end unless an entry of the policy whose attribute the
    feature has is itself displayed as "Title". *)
Theorem C5_title_injection :
  (forall mem fid ftype geom,
     apply_field_mapping (Some [("__title__", "name"); ("name", "County Name")])
       {| members := mem;
          features := [ {| feature_id := fid; feature_type := ftype;
                           properties := [("name", JStr "Franklin")];
                           geometry := geom |} ] |}
     = {| members := mem;
          features := [ {| feature_id := fid; feature_type := ftype;
                           properties := [("Title", JStr "Franklin");
                                          ("County Name", JStr "Franklin")];
                           geometry := geom |} ] |})
  /\
  (forall (m : dict string) (g : feature_collection) (i : nat) (f : feature)
          (title_field : string) (v : json),
     dict_get m "__title__" = Some title_field ->
     title_field <> "" ->
     dict_get (properties f) title_field = Some v ->
     features g !! i = Some f ->
     exists f',
       features (apply_field_mapping (Some m) g) !! i = Some f' /\
       properties f' = fold_left (rename_step (properties f))
                                 (List.filter is_rename_entry m) [("Title", v)] /\
       (exists v1 rest, properties f' = ("Title", v1) :: rest) /\
       ((forall original_key, (original_key, "Title") ∈ m -> original_key <> "__title__" ->
                              dict_get (properties f) original_key = None) ->
        dict_get (properties f') "Title" = Some v)).
Proof.
  split.
  - intros mem fid ftype geom. reflexivity.
  - intros m g i f tf v Htf Hne Hv Hf.
    assert (Hm : m <> []) by (eapply dict_get_Some_nonempty; exact Htf).
    assert (Hinit : set_title (dict_get m "__title__") (properties f) = [("Title", v)]).
    { unfold set_title. rewrite Htf. apply String.eqb_neq in Hne.
      unfold str_truthy. rewrite Hne. simpl. rewrite Hv. reflexivity. }
    exists (map_feature m f). split; [| split; [| split]].
    + rewrite apply_field_mapping_features by exact Hm.
      change (map (map_feature m) (features g)) with (map_feature m <$> features g).
      rewrite list_lookup_fmap, Hf. reflexivity.
    + simpl. unfold new_properties. rewrite Hinit. apply rename_loop_skips_title.
    + simpl. unfold new_properties. rewrite Hinit.
      apply (fold_left_invariant (fun new => exists v1 rest, new = ("Title", v1) :: rest)).
      * eauto.
      * intros new [ok nk] _ (v1 & rest & ->). unfold rename_step.
        destruct (String.eqb ok "__title__"); [eauto |].
        destruct (dict_get (properties f) ok); [| eauto].
        apply dict_set_head.
    + intros Hfree. simpl. unfold new_properties. rewrite Hinit.
      apply (fold_left_invariant (fun new => dict_get new "Title" = Some v)).
      * reflexivity.
      * intros new [ok nk] Hin Hnew. unfold rename_step.
        destruct (String.eqb_spec ok "__title__") as [-> | Hok]; [exact Hnew |].
        destruct (dict_get (properties f) ok) as [v' |] eqn:Hv'; [| exact Hnew].
        destruct (String.eqb_spec nk "Title") as [-> | Hnk].
        -- rewrite (Hfree ok Hin Hok) in Hv'. discriminate.
        -- rewrite dict_get_set_ne by exact Hnk. exact Hnew.
Qed.

Lemma C5_title_injection_witness :
  exists f',
    features (apply_field_mapping (Some Toy.county_policy) Toy.counties) !! 0%nat = Some f' /\
    properties f' = [("Title", JStr "Franklin"); ("County Name", JStr "Franklin")] /\
    dict_get (properties f') "Title" = Some (JStr "Franklin").
Proof.
  destruct (proj2 C5_title_injection Toy.county_policy Toy.counties 0%nat
              {| feature_id := JStr "0"; feature_type := "Feature";
                 properties := [("name", JStr "Franklin")];
                 geometry := Toy.point 3 4 |}
              "name" (JStr "Franklin"))
    as (f' & Hf' & Hloop & _ & Htitle).
  - reflexivity.
  - discriminate.
  - reflexivity.
  - reflexivity.
  - exists f'. split; [exact Hf' | split].
    + rewrite Hloop. reflexivity.
    + apply Htitle. intros original_key Hin Hne.
      unfold Toy.county_policy in Hin.
      apply elem_of_cons in Hin as [Heq | Hin]; [congruence |].
      apply list_elem_of_singleton in Hin. congruence.
Defined.

(** C5, as stated, fails when an entry of the policy is displayed as
    "Title": the rename loop runs after the title is set and overwrites it. *)
Lemma C5_counterexample :
  dict_get Toy.titled_policy "__title__" = Some "name" /\
  dict_get [("name", JStr "Franklin"); ("kind", JStr "county")] "name" = Some (JStr "Franklin") /\
  new_properties Toy.titled_policy [("name", JStr "Franklin"); ("kind", JStr "county")]
    = [("Title", JStr "county")].
Proof. repeat split. Qed.

(** C10. The field mapping touches nothing but the properties: the
    top-level members of the document, the number and the order of the
    features, and the id, type and geometry of every feature are what they
    were before. *)
Theorem C10_mapping_frame (mapping : option (dict string)) (g : feature_collection) :
  let g' := apply_field_mapping mapping g in
  members g' = members g /\
  length (features g') = length (features g) /\
  map geometry (features g') = map geometry (features g) /\
  map feature_type (features g') = map feature_type (features g) /\
  map feature_id (features g') = map feature_id (features g).
Proof.
  destruct mapping as [[| entry m] |]; simpl; try (repeat split; reflexivity).
  repeat split.
  - apply length_map.
  - rewrite map_map. reflexivity.
  - rewrite map_map. reflexivity.
  - rewrite map_map. reflexivity.
Qed.

(** ** Discovery *)

Section ServerFacts.
Context {Pl : Platform}.

Lemma discover_shapefiles_listing directory (w : world) listing :
  isdir (fs w) directory = true ->
  listdir (fs w) directory = Ok listing ->
  discover_shapefiles directory w =
    (Ok (sorted (shapefile_names listing)),
     log w [EIsdir directory; EListdir directory;
            EPrint (MsgDiscovered (shapefile_names listing))]).
Proof.
  intros Hdir Hls.
  unfold discover_shapefiles, bind, os_path_isdir, os_listdir, print, emit, ret, log.
  simpl. rewrite Hdir. simpl. rewrite Hls. simpl.
  rewrite <- ?app_assoc. reflexivity.
Qed.

Lemma discover_shapefiles_missing directory (w : world) :
  isdir (fs w) directory = false ->
  discover_shapefiles directory w =
    (Ok [], log w [EIsdir directory; EPrint (MsgDirNotFound directory)]).
Proof.
  intros Hdir.
  unfold discover_shapefiles, bind, os_path_isdir, print, emit, ret, log.
  simpl. rewrite Hdir. simpl. rewrite <- ?app_assoc. reflexivity.
Qed.

End ServerFacts.

(** Two calls of [discover_shapefiles] on a directory with the same entries,
    in whatever order the system lists them, return the same list; it is
    sorted lexicographically and holds, for every entry whose name ends in
    [".shp"], the root that [os.path.splitext] gives; it has no duplicates
    when [splitext] takes the [".shp"] off each of these names. *)
Lemma discover_shapefiles_sorted_stable {Pl : Platform} (directory : string) (w1 w2 : world)
    (listing1 listing2 : list string) :
  isdir (fs w1) directory = true ->
  isdir (fs w2) directory = true ->
  listdir (fs w1) directory = Ok listing1 ->
  listdir (fs w2) directory = Ok listing2 ->
  listing1 ≡ₚ listing2 ->
  exists names,
    fst (discover_shapefiles directory w1) = Ok names /\
    fst (discover_shapefiles directory w2) = Ok names /\
    Sorted Str.le names /\
    (forall x, x ∈ names <->
               exists filename, filename ∈ listing1 /\ Str.endswith filename ".shp" = true
                                /\ x = fst (splitext filename)) /\
    (NoDup listing1 ->
     (forall filename, filename ∈ listing1 -> Str.endswith filename ".shp" = true ->
                       filename = fst (splitext filename) +:+ ".shp") ->
     NoDup names).
Proof.
  intros Hd1 Hd2 Hl1 Hl2 Hperm.
  exists (sorted (shapefile_names listing1)).
  rewrite (discover_shapefiles_listing directory w1 listing1 Hd1 Hl1).
  rewrite (discover_shapefiles_listing directory w2 listing2 Hd2 Hl2).
  simpl. split; [reflexivity | split; [| split; [| split]]].
  - f_equal. symmetry. apply sorted_respects_Permutation, shapefile_names_Permutation, Hperm.
  - apply sorted_Sorted.
  - intros x. rewrite (sorted_Permutation (shapefile_names listing1)).
    apply elem_of_shapefile_names.
  - intros Hnd Hstrip. rewrite (sorted_Permutation (shapefile_names listing1)).
    apply shapefile_names_NoDup; assumption.
Qed.

Lemma discover_shapefiles_sorted_stable_example :
  exists names,
    fst (discover_shapefiles "data" (Toy.boot Toy.disk0)) = Ok names /\
    fst (discover_shapefiles "data" (Toy.boot Toy.disk1)) = Ok names /\
    Sorted Str.le names /\
    (forall x, x ∈ names <->
               exists filename, filename ∈ ["b.shp"; "notes.txt"; "a.shp"; "a.dbf"]
                                /\ Str.endswith filename ".shp" = true
                                /\ x = fst (splitext filename)) /\
    NoDup names.
Proof.
  destruct (discover_shapefiles_sorted_stable (Pl := Toy.platform) "data" (Toy.boot Toy.disk0) (Toy.boot Toy.disk1)
              ["b.shp"; "notes.txt"; "a.shp"; "a.dbf"]
              ["a.dbf"; "a.shp"; "b.shp"; "notes.txt"])
    as (names & H1 & H2 & Hsorted & Hmem & Hnodup).
  - reflexivity.
  - reflexivity.
  - reflexivity.
  - reflexivity.
  - apply NoDup_Permutation.
    + by_computation.
    + by_computation.
    + intros x. rewrite !elem_of_cons, !elem_of_nil. tauto.
  - exists names. repeat split; try assumption.
    + apply Hmem.
    + apply Hmem.
    + apply Hnodup.
      * by_computation.
      * intros filename Hin Hends.
        rewrite !elem_of_cons, elem_of_nil in Hin.
        destruct Hin as [-> | [-> | [-> | [-> | []]]]]; try reflexivity; discriminate.
Defined.

(** C8 (the code on the failing input). In a directory that holds the two
    entries [".shp"] and [".shp.shp"], [os.path.splitext] leaves the first
    name whole, against the comment "Return the name without the .shp
    extension", and takes the extension off the second: the list that
    [discover_shapefiles] returns is sorted but names the layer [".shp"]
    twice, and for that layer the handler opens [data/.shp.shp]. *)
Theorem C8_hidden_shp_listed_twice :
  NoDup [".shp"; ".shp.shp"] /\
  listdir Toy.dotted "data" = Ok [".shp"; ".shp.shp"] /\
  splitext ".shp" = (".shp", "") /\
  splitext ".shp.shp" = (".shp", ".shp") /\
  fst (discover_shapefiles "data" (Toy.boot Toy.dotted)) = Ok [".shp"; ".shp"] /\
  ~ NoDup [".shp"; ".shp"] /\
  shapefile_path ".shp" = "data/.shp.shp".
Proof.
  split; [by_computation |].
  split; [reflexivity |].
  split; [reflexivity |].
  split; [reflexivity |].
  split; [vm_compute; reflexivity |].
  split; [| reflexivity].
  intros Hnd. apply NoDup_cons in Hnd as [Hnin _]. apply Hnin. left.
Qed.

(** ** The request handler *)

Section HandlerFacts.
Context {Pl : Platform}.
Variable FIELD_MAPPING : dict (dict string).
Variable AVAILABLE_LAYERS : list string.

Implicit Types (w : world) (layer_name path payload e : string).

Lemma log_log w evs1 evs2 : log (log w evs1) evs2 = log w (evs1 ++ evs2).
Proof. unfold log. simpl. rewrite app_assoc. reflexivity. Qed.

Lemma loads_app t1 t2 : loads (t1 ++ t2) = (loads t1 + loads t2)%nat.
Proof. unfold loads. rewrite List.filter_app, length_app. reflexivity. Qed.

Lemma writes_app t1 t2 : writes (t1 ++ t2) = writes t1 ++ writes t2.
Proof. unfold writes. apply List.filter_app. Qed.

(** What [load_layer] does, step by step. *)
Lemma load_layer_run layer_name path w :
  load_layer FIELD_MAPPING layer_name path w =
    match read_file (fs w) path with
    | Raise e => (Raise e, log w (read_events layer_name path))
    | Ok gdf =>
        match to_crs gdf with
        | Raise e => (Raise e, log w (read_events layer_name path))
        | Ok gdf' =>
            match to_geojson gdf' with
            | Raise e => (Raise e, log w (parsed_events layer_name path))
            | Ok geodata_json =>
                let mapping := dict_get FIELD_MAPPING layer_name in
                (Ok (dumps (apply_field_mapping mapping geodata_json)),
                 log w (mapped_events layer_name path mapping))
            end
        end
    end.
Proof.
  unfold load_layer, map_fields, bind, print, emit, gpd_read_file, lift, ret, log,
    mapped_events, parsed_events, read_events.
  simpl.
  destruct (read_file (fs w) path) as [gdf | e]; simpl;
    [| rewrite <- ?app_assoc; reflexivity].
  destruct (to_crs gdf) as [gdf' | e]; simpl;
    [| rewrite <- ?app_assoc; reflexivity].
  destruct (to_geojson gdf') as [geodata_json | e]; simpl;
    [| rewrite <- ?app_assoc; reflexivity].
  destruct (mapping_truthy (dict_get FIELD_MAPPING layer_name)); simpl;
    rewrite <- ?app_assoc; reflexivity.
Qed.

(** [load_layer] only reads: whatever its outcome, it leaves the files and
    the cache alone and calls [gpd.read_file] once. *)
Lemma load_layer_effect layer_name path w :
  exists evs,
    snd (load_layer FIELD_MAPPING layer_name path w) = log w evs /\
    loads evs = 1%nat /\ writes evs = [].
Proof.
  rewrite load_layer_run.
  destruct (read_file (fs w) path) as [gdf | e];
    [| exists (read_events layer_name path); repeat split].
  destruct (to_crs gdf) as [gdf' | e];
    [| exists (read_events layer_name path); repeat split].
  destruct (to_geojson gdf') as [geodata_json | e];
    [| exists (parsed_events layer_name path); repeat split].
  exists (mapped_events layer_name path (dict_get FIELD_MAPPING layer_name)).
  repeat split.
Qed.

(** The handler never raises, and it serves in one of the four ways. *)
Lemma get_geodata_served layer_name w :
  exists r w', get_geodata FIELD_MAPPING AVAILABLE_LAYERS layer_name w = (Ok r, w') /\
               served FIELD_MAPPING AVAILABLE_LAYERS layer_name w r w'.
Proof.
  unfold get_geodata.
  destruct (bool_decide (layer_name ∈ AVAILABLE_LAYERS)) eqn:Hin; simpl.
  - apply bool_decide_eq_true in Hin.
    unfold bind at 1, cache_lookup at 1.
    destruct (geodata_cache w !! layer_name) as [payload |] eqn:Hc.
    + eexists _, _. split; [reflexivity |]. apply served_hit; assumption.
    + unfold try_except, bind at 1.
      destruct (load_layer FIELD_MAPPING layer_name (shapefile_path layer_name) w)
        as [[payload | e] w1] eqn:Hload.
      * eexists _, _. split; [| apply (served_loaded _ _ _ _ payload w1); assumption].
        cbv beta iota delta [bind cache_store save_copy try_except open_write print emit
                               ret after_save].
        simpl. destruct (write_text (fs w1) layer_name payload) as [[[] | e] fs']; simpl;
          rewrite <- ?app_assoc; reflexivity.
      * eexists _, _. split; [| apply (served_failure _ _ _ _ e w1); assumption].
        cbv beta iota delta [bind print emit ret log].
        simpl. rewrite <- ?app_assoc. reflexivity.
  - apply bool_decide_eq_false in Hin.
    eexists _, _. split; [reflexivity |]. apply served_not_found. exact Hin.
Qed.

Lemma get_geodata_inv layer_name w r w' :
  get_geodata FIELD_MAPPING AVAILABLE_LAYERS layer_name w = (r, w') ->
  exists r', r = Ok r' /\ served FIELD_MAPPING AVAILABLE_LAYERS layer_name w r' w'.
Proof.
  intros Hrun. destruct (get_geodata_served layer_name w) as (r0 & w0 & Heq & Hs).
  rewrite Hrun in Heq. injection Heq as -> ->. eauto.
Qed.

Lemma after_save_cache w layer_name payload :
  geodata_cache (after_save w layer_name payload)
  = <[layer_name := payload]> (geodata_cache w).
Proof. unfold after_save. destruct (write_text _ _ _) as [r fs']. reflexivity. Qed.

Lemma after_save_trace w layer_name payload :
  exists m, trace (after_save w layer_name payload)
            = trace w ++ [EWrite layer_name payload; EPrint m;
                          EPrint (MsgLoaded layer_name)].
Proof. unfold after_save. destruct (write_text _ _ _) as [r fs']. simpl. eauto. Qed.

Lemma load_layer_frame layer_name path w r w1 :
  load_layer FIELD_MAPPING layer_name path w = (r, w1) ->
  fs w1 = fs w /\ geodata_cache w1 = geodata_cache w /\
  loads (trace w1) = S (loads (trace w)) /\ writes (trace w1) = writes (trace w).
Proof.
  intros Hload. destruct (load_layer_effect layer_name path w) as (evs & Hw1 & Hl & Hw).
  rewrite Hload in Hw1. simpl in Hw1. subst w1. simpl.
  rewrite loads_app, writes_app, Hl, Hw, app_nil_r. repeat split; try reflexivity.
  apply Nat.add_1_r.
Qed.

(** A request never removes or replaces an entry of the cache. *)
Lemma served_keeps_cache layer_name w r w' k payload :
  served FIELD_MAPPING AVAILABLE_LAYERS layer_name w r w' ->
  geodata_cache w !! k = Some payload ->
  geodata_cache w' !! k = Some payload.
Proof.
  intros Hs Hk. destruct Hs as [Hnin | p Hin Hc | e w1 Hin Hc Hload | p w1 Hin Hc Hload].
  - exact Hk.
  - exact Hk.
  - apply load_layer_frame in Hload as (_ & Hcache & _). simpl. rewrite Hcache. exact Hk.
  - apply load_layer_frame in Hload as (_ & Hcache & _).
    rewrite after_save_cache, Hcache.
    rewrite lookup_insert_ne; [exact Hk | congruence].
Qed.

Lemma perform_keeps_cache a w k payload :
  geodata_cache w !! k = Some payload ->
  geodata_cache (perform FIELD_MAPPING AVAILABLE_LAYERS a w) !! k = Some payload.
Proof.
  intros Hk. destruct a as [layer_name | new_fs]; simpl; [| exact Hk].
  destruct (get_geodata_served layer_name w) as (r & w' & Heq & Hs).
  rewrite Heq. simpl. eapply served_keeps_cache; eassumption.
Qed.

Lemma run_keeps_cache actions w k payload :
  geodata_cache w !! k = Some payload ->
  geodata_cache (run FIELD_MAPPING AVAILABLE_LAYERS actions w) !! k = Some payload.
Proof.
  revert w. induction actions as [| a actions IH]; intros w Hk; simpl; [exact Hk |].
  apply IH, perform_keeps_cache, Hk.
Qed.

Lemma get_geodata_hit layer_name w payload :
  layer_name ∈ AVAILABLE_LAYERS ->
  geodata_cache w !! layer_name = Some payload ->
  get_geodata FIELD_MAPPING AVAILABLE_LAYERS layer_name w
  = (Ok (response_class payload 200 "application/json"), w).
Proof.
  intros Hin Hc. unfold get_geodata.
  rewrite (bool_decide_eq_true_2 _ Hin). simpl.
  unfold bind, cache_lookup. rewrite Hc. reflexivity.
Qed.

(** A request for an available layer that is not cached calls
    [gpd.read_file] exactly once. *)
Lemma get_geodata_miss_loads layer_name w :
  layer_name ∈ AVAILABLE_LAYERS ->
  geodata_cache w !! layer_name = None ->
  loads (trace (snd (get_geodata FIELD_MAPPING AVAILABLE_LAYERS layer_name w)))
  = S (loads (trace w)).
Proof.
  intros Hin Hc. destruct (get_geodata_served layer_name w) as (r & w' & Heq & Hs).
  rewrite Heq. simpl.
  destruct Hs as [Hnin | p _ Hc' | e w1 _ _ Hload | p w1 _ _ Hload].
  - contradiction.
  - congruence.
  - apply load_layer_frame in Hload as (_ & _ & Hl & _). simpl.
    rewrite loads_app, Hl. unfold loads. simpl. lia.
  - apply load_layer_frame in Hload as (_ & _ & Hl & _).
    destruct (after_save_trace w1 layer_name p) as (m & ->).
    rewrite loads_app, Hl. unfold loads. simpl. lia.
Qed.

Lemma discover_shapefiles_effect directory w :
  exists evs, snd (discover_shapefiles directory w) = log w evs /\ writes evs = [].
Proof.
  cbv beta iota delta [discover_shapefiles bind os_path_isdir os_listdir print emit ret log].
  simpl. destruct (isdir (fs w) directory); simpl.
  - destruct (listdir (fs w) directory) as [listing | e]; simpl.
    + exists [EIsdir directory; EListdir directory;
              EPrint (MsgDiscovered (shapefile_names listing))].
      rewrite <- ?app_assoc. split; reflexivity.
    + exists [EIsdir directory; EListdir directory].
      rewrite <- ?app_assoc. split; reflexivity.
  - exists [EIsdir directory; EPrint (MsgDirNotFound directory)].
    rewrite <- ?app_assoc. split; reflexivity.
Qed.

Lemma write_placeholder_run item w :
  exists w', write_placeholder item w = (Ok tt, w') /\
             geodata_cache w' = geodata_cache w /\
             writes (trace w') = writes (trace w) ++ [placeholder_write item].
Proof.
  destruct item as [filename_key field_details].
  cbv beta iota delta [write_placeholder bind try_except open_write print emit ret
                         placeholder_write].
  simpl.
  destruct (write_text (fs w) (filename_key +:+ ".txt")
              (placeholder_text filename_key field_details)) as [[[] | e] fs'];
    simpl; eexists; (split; [reflexivity |]); simpl; (split; [reflexivity |]);
    rewrite ?writes_app; simpl; rewrite ?app_nil_r; reflexivity.
Qed.

Lemma for_each_write_placeholder_run (l : dict (dict string)) w :
  exists w', for_each write_placeholder l w = (Ok tt, w') /\
             geodata_cache w' = geodata_cache w /\
             writes (trace w') = writes (trace w) ++ map placeholder_write l.
Proof.
  revert w. induction l as [| item l IH]; intros w; simpl.
  - exists w. rewrite app_nil_r. repeat split.
  - destruct (write_placeholder_run item w) as (w1 & Hrun & Hc1 & Hw1).
    destruct (IH w1) as (w2 & Hrest & Hc2 & Hw2).
    exists w2. unfold bind. rewrite Hrun, Hrest. split; [reflexivity |].
    split; [congruence |]. rewrite Hw2, Hw1, <- app_assoc. reflexivity.
Qed.

End HandlerFacts.

(** The handler on a name that is not in [AVAILABLE_LAYERS]: status 404,
    the JSON body [{"error": "Layer not found"}], and the world as it was. *)
Lemma get_geodata_unknown_layer {Pl : Platform} (FIELD_MAPPING : dict (dict string))
    (AVAILABLE_LAYERS : list string) (layer_name : string) (w : world) :
  layer_name ∉ AVAILABLE_LAYERS ->
  get_geodata FIELD_MAPPING AVAILABLE_LAYERS layer_name w
  = (Ok {| status := 404; mimetype := "application/json";
           content := JsonBody (JObj [("error", JStr "Layer not found")]) |}, w).
Proof.
  intros Hnin. unfold get_geodata.
  rewrite (bool_decide_eq_false_2 _ Hnin). reflexivity.
Qed.

(** C1 (amended). A request [GET /api/data/<layerName>] for a name that is
    not in [AVAILABLE_LAYERS] leaves the world as it was: no event is added,
    so no file is read and the load counter stands. When the name is one
    non-empty path segment, the handler runs and answers 404 with the JSON
    body [{"error": "Layer not found"}]. A name that is empty or has a
    slash, such as ["../secret"], never reaches the handler: the answer is
    Flask's own, and where that is its Not Found page it has status 404 and
    an HTML body, not the JSON body. *)
Theorem C1_unknown_layer_over_http {Pl : Platform} (FIELD_MAPPING : dict (dict string))
    (AVAILABLE_LAYERS : list string) (flask_answer : string -> response)
    (layerName : string) (w : world) :
  layerName ∉ AVAILABLE_LAYERS ->
  let answer := get_api_data FIELD_MAPPING AVAILABLE_LAYERS flask_answer layerName w in
  snd answer = w /\
  loads (trace (snd answer)) = loads (trace w) /\
  (route_matches layerName = true ->
   fst answer = Ok {| status := 404; mimetype := "application/json";
                      content := JsonBody (JObj [("error", JStr "Layer not found")]) |}) /\
  (route_matches layerName = false -> fst answer = Ok (flask_answer layerName)) /\
  (route_matches layerName = false -> flask_answer layerName = flask_not_found ->
   fst answer = Ok {| status := 404; mimetype := "text/html";
                      content := TextBody not_found_page |}).
Proof.
  intros Hnin answer. subst answer. unfold get_api_data.
  destruct (route_matches layerName) eqn:Hroute.
  - rewrite (get_geodata_unknown_layer _ _ _ _ Hnin). simpl.
    repeat split; try reflexivity; discriminate.
  - simpl. repeat split; try reflexivity; try discriminate.
    intros _ ->. reflexivity.
Qed.

Lemma C1_unknown_layer_over_http_witness :
  (snd (get_api_data Toy.registry Toy.layers (fun _ => flask_not_found) "../secret"
          (Toy.boot Toy.disk0)) = Toy.boot Toy.disk0 /\
   fst (get_api_data Toy.registry Toy.layers (fun _ => flask_not_found) "../secret"
          (Toy.boot Toy.disk0))
   = Ok {| status := 404; mimetype := "text/html"; content := TextBody not_found_page |}) /\
  (snd (get_api_data Toy.registry Toy.layers (fun _ => flask_not_found) "secret"
          (Toy.boot Toy.disk0)) = Toy.boot Toy.disk0 /\
   fst (get_api_data Toy.registry Toy.layers (fun _ => flask_not_found) "secret"
          (Toy.boot Toy.disk0))
   = Ok {| status := 404; mimetype := "application/json";
           content := JsonBody (JObj [("error", JStr "Layer not found")]) |}).
Proof.
  split.
  - destruct (C1_unknown_layer_over_http (Pl := Toy.platform) Toy.registry Toy.layers
                (fun _ => flask_not_found) "../secret" (Toy.boot Toy.disk0))
      as (Hw & _ & _ & _ & Hpage); [by_computation |].
    split; [exact Hw | apply Hpage; reflexivity].
  - destruct (C1_unknown_layer_over_http (Pl := Toy.platform) Toy.registry Toy.layers
                (fun _ => flask_not_found) "secret" (Toy.boot Toy.disk0))
      as (Hw & _ & Hjson & _); [by_computation |].
    split; [exact Hw | apply Hjson; reflexivity].
Defined.

(** C1, as stated, fails for ["../secret"]: the rule of the route does not
    match a name with a slash, the handler is not called, and the body of
    the answer is Flask's HTML page instead of the JSON object. *)
Lemma C1_counterexample :
  ("../secret" ∉ Toy.layers) /\
  route_matches "../secret" = false /\
  get_api_data Toy.registry Toy.layers (fun _ => flask_not_found) "../secret"
    (Toy.boot Toy.disk0)
  = (Ok flask_not_found, Toy.boot Toy.disk0) /\
  mimetype flask_not_found = "text/html" /\
  content flask_not_found <> JsonBody (JObj [("error", JStr "Layer not found")]).
Proof.
  split; [by_computation |]. repeat split. discriminate.
Qed.

(** C2. Once a request for a layer has been answered with status 200, its
    payload is in the cache, and it stays there whatever requests are served
    and however the files change afterwards: every later request for the
    layer gets the very same response and leaves the world, and with it the
    load counter, untouched. *)
Theorem C2_cache_idempotent {Pl : Platform} (FIELD_MAPPING : dict (dict string))
    (AVAILABLE_LAYERS : list string) (layer_name : string)
    (w0 w1 : world) (r1 : response) (later : list action) :
  get_geodata FIELD_MAPPING AVAILABLE_LAYERS layer_name w0 = (Ok r1, w1) ->
  status r1 = 200 ->
  let w2 := run FIELD_MAPPING AVAILABLE_LAYERS later w1 in
  exists payload,
    content r1 = TextBody payload /\
    geodata_cache w2 !! layer_name = Some payload /\
    get_geodata FIELD_MAPPING AVAILABLE_LAYERS layer_name w2 = (Ok r1, w2) /\
    loads (trace (snd (get_geodata FIELD_MAPPING AVAILABLE_LAYERS layer_name w2)))
    = loads (trace w2).
Proof.
  intros Hrun Hstatus w2.
  apply get_geodata_inv in Hrun as (r' & [= <-] & Hs).
  assert (exists payload,
            r1 = response_class payload 200 "application/json" /\
            layer_name ∈ AVAILABLE_LAYERS /\
            geodata_cache w1 !! layer_name = Some payload) as (payload & -> & Hin & Hc).
  { destruct Hs as [Hnin | p Hin Hc | e w' Hin Hc Hload | p w' Hin Hc Hload];
      try discriminate Hstatus.
    - exists p. auto.
    - exists p. repeat split; [exact Hin |].
      rewrite after_save_cache. apply lookup_insert_eq. }
  assert (Hc2 : geodata_cache w2 !! layer_name = Some payload)
    by (apply run_keeps_cache; exact Hc).
  exists payload. rewrite (get_geodata_hit _ _ _ _ _ Hin Hc2). repeat split. exact Hc2.
Qed.

Lemma C2_cache_idempotent_witness :
  let w1 := snd (get_geodata Toy.registry Toy.layers "a" (Toy.boot Toy.disk0)) in
  let w2 := run Toy.registry Toy.layers
                [Request "b"; @FsChange Toy.platform Toy.dotted; Request "a"; Request "zzz"] w1 in
  exists payload,
    TextBody "[Senate District #=12;]" = TextBody payload /\
    geodata_cache w2 !! "a" = Some payload /\
    get_geodata Toy.registry Toy.layers "a" w2
    = (Ok (response_class "[Senate District #=12;]" 200 "application/json"), w2) /\
    loads (trace (snd (get_geodata Toy.registry Toy.layers "a" w2))) = loads (trace w2).
Proof.
  intros w1.
  apply (C2_cache_idempotent (Pl := Toy.platform) Toy.registry Toy.layers "a"
           (Toy.boot Toy.disk0) w1
           (response_class "[Senate District #=12;]" 200 "application/json")
           [Request "b"; @FsChange Toy.platform Toy.dotted; Request "a"; Request "zzz"]).
  - reflexivity.
  - reflexivity.
Defined.

(** C6. When the load of an available, not yet cached layer fails, be it in
    [gpd.read_file], in [to_crs] or in the conversion to GeoJSON, the
    handler answers with status 500 and the JSON body
    [{"error": "Could not load data for layer: <layer_name>"}]; the cache and
    the files are what they were, and a later request for the layer made
    with that cache calls [gpd.read_file] again. *)
Theorem C6_failed_load {Pl : Platform} (FIELD_MAPPING : dict (dict string))
    (AVAILABLE_LAYERS : list string) (layer_name : string) (w : world) (e : string) :
  layer_name ∈ AVAILABLE_LAYERS ->
  geodata_cache w !! layer_name = None ->
  (read_file (fs w) (shapefile_path layer_name) = Raise e \/
   (exists gdf, read_file (fs w) (shapefile_path layer_name) = Ok gdf /\
                to_crs gdf = Raise e) \/
   (exists gdf gdf', read_file (fs w) (shapefile_path layer_name) = Ok gdf /\
                     to_crs gdf = Ok gdf' /\ to_geojson gdf' = Raise e)) ->
  exists w',
    get_geodata FIELD_MAPPING AVAILABLE_LAYERS layer_name w
    = (Ok {| status := 500; mimetype := "application/json";
             content := JsonBody (JObj [("error",
                          JStr ("Could not load data for layer: " +:+ layer_name))]) |},
       w') /\
    geodata_cache w' = geodata_cache w /\
    fs w' = fs w /\
    forall w2 : world,
      geodata_cache w2 = geodata_cache w' ->
      loads (trace (snd (get_geodata FIELD_MAPPING AVAILABLE_LAYERS layer_name w2)))
      = S (loads (trace w2)).
Proof.
  intros Hin Hc Hfail.
  assert (exists w1, load_layer FIELD_MAPPING layer_name (shapefile_path layer_name) w
                     = (Raise e, w1)) as (w1 & Hload).
  { rewrite load_layer_run.
    destruct Hfail as [-> | [(gdf & -> & ->) | (gdf & gdf' & -> & -> & ->)]]; eauto. }
  destruct (get_geodata_served FIELD_MAPPING AVAILABLE_LAYERS layer_name w)
    as (r & w' & Heq & Hs).
  destruct Hs as [Hnin | p _ Hc' | e' w1' _ _ Hload' | p w1' _ _ Hload'];
    [contradiction | congruence | | congruence].
  rewrite Hload in Hload'. injection Hload' as <- <-.
  apply load_layer_frame in Hload as (Hfs & Hcache & _ & _).
  eexists. split; [exact Heq |]. simpl. split; [exact Hcache | split; [exact Hfs |]].
  intros w2 Hc2. apply get_geodata_miss_loads; [exact Hin |].
  rewrite Hc2, Hcache. exact Hc.
Qed.

Lemma C6_failed_load_witness :
  exists w',
    get_geodata Toy.registry Toy.layers "b" (Toy.boot Toy.disk0)
    = (Ok {| status := 500; mimetype := "application/json";
             content := JsonBody (JObj [("error",
                          JStr "Could not load data for layer: b")]) |}, w') /\
    geodata_cache w' = geodata_cache (Toy.boot Toy.disk0) /\
    fs w' = fs (Toy.boot Toy.disk0) /\
    forall w2 : world,
      geodata_cache w2 = geodata_cache w' ->
      loads (trace (snd (get_geodata Toy.registry Toy.layers "b" w2)))
      = S (loads (trace w2)).
Proof.
  apply (C6_failed_load (Pl := Toy.platform) Toy.registry Toy.layers "b"
           (Toy.boot Toy.disk0) "No such file").
  - by_computation.
  - reflexivity.
  - left. reflexivity.
Defined.

(** C7. For an available, not yet cached layer without an entry in
    [FIELD_MAPPING] whose file is read, reprojected and converted, the
    request succeeds: the payload is the serialization of the very document
    that the conversion gave, with every feature as it was, and the events
    of the request include the warning that no mapping was found and no
    error report. *)
Theorem C7_unmapped_layer_passes_through {Pl : Platform}
    (FIELD_MAPPING : dict (dict string)) (AVAILABLE_LAYERS : list string)
    (layer_name : string) (w : world)
    (gdf gdf' : GeoDataFrame) (geodata_json : feature_collection) :
  layer_name ∈ AVAILABLE_LAYERS ->
  dict_get FIELD_MAPPING layer_name = None ->
  geodata_cache w !! layer_name = None ->
  read_file (fs w) (shapefile_path layer_name) = Ok gdf ->
  to_crs gdf = Ok gdf' ->
  to_geojson gdf' = Ok geodata_json ->
  exists w' evs,
    get_geodata FIELD_MAPPING AVAILABLE_LAYERS layer_name w
    = (Ok {| status := 200; mimetype := "application/json";
             content := TextBody (dumps geodata_json) |}, w') /\
    apply_field_mapping (dict_get FIELD_MAPPING layer_name) geodata_json = geodata_json /\
    geodata_cache w' !! layer_name = Some (dumps geodata_json) /\
    trace w' = trace w ++ evs /\
    EPrint (MsgNoMapping layer_name) ∈ evs /\
    (ETraceback ∉ evs) /\
    (forall e, EPrint (MsgCritical layer_name e) ∉ evs).
Proof.
  intros Hin Hmap Hc Hread Hcrs Hjson.
  assert (Hload : load_layer FIELD_MAPPING layer_name (shapefile_path layer_name) w
                  = (Ok (dumps geodata_json),
                     log w (mapped_events layer_name (shapefile_path layer_name) None))).
  { rewrite load_layer_run, Hread, Hcrs, Hjson. simpl. rewrite Hmap. reflexivity. }
  destruct (get_geodata_served FIELD_MAPPING AVAILABLE_LAYERS layer_name w)
    as (r & w' & Heq & Hs).
  destruct Hs as [Hnin | p _ Hc' | e' w1' _ _ Hload' | p w1' _ _ Hload'];
    [contradiction | congruence | congruence |].
  rewrite Hload in Hload'. injection Hload' as <- <-.
  destruct (after_save_trace
              (log w (mapped_events layer_name (shapefile_path layer_name) None))
              layer_name (dumps geodata_json)) as (m & Htrace).
  assert (Hm : forall e, m <> MsgCritical layer_name e).
  { intros e. revert Htrace. unfold after_save.
    destruct (write_text _ _ _) as [[[] | e0] fs']; simpl; intros Htrace;
      apply app_inv_head in Htrace; injection Htrace as <-; discriminate. }
  eexists _, _. split; [exact Heq |].
  split; [rewrite Hmap; reflexivity |].
  split; [rewrite after_save_cache; apply lookup_insert_eq |].
  split; [rewrite Htrace; simpl; rewrite <- app_assoc; reflexivity |].
  unfold mapped_events, parsed_events, read_events. simpl.
  split; [| split].
  - rewrite !elem_of_cons. auto 10.
  - rewrite !elem_of_cons, elem_of_nil. intros Hx.
    repeat (destruct Hx as [Hx | Hx]; [discriminate Hx |]). exact Hx.
  - intros e. rewrite !elem_of_cons, elem_of_nil. intros Hx.
    repeat (destruct Hx as [Hx | Hx];
            [first [discriminate Hx | injection Hx as Hx; exact (Hm e (eq_sym Hx))] |]).
    exact Hx.
Qed.

Lemma C7_unmapped_layer_passes_through_witness :
  exists w' evs,
    get_geodata Toy.registry Toy.layers "b" (Toy.boot Toy.disk2)
    = (Ok {| status := 200; mimetype := "application/json";
             content := TextBody "[name=Franklin;]" |}, w') /\
    apply_field_mapping (dict_get Toy.registry "b") Toy.counties = Toy.counties /\
    geodata_cache w' !! "b" = Some "[name=Franklin;]" /\
    trace w' = trace (Toy.boot Toy.disk2) ++ evs /\
    EPrint (MsgNoMapping "b") ∈ evs /\
    (ETraceback ∉ evs) /\
    (forall e, EPrint (MsgCritical "b" e) ∉ evs).
Proof.
  apply (C7_unmapped_layer_passes_through (Pl := Toy.platform) Toy.registry Toy.layers "b"
           (Toy.boot Toy.disk2) Toy.counties Toy.counties Toy.counties).
  - by_computation.
  - reflexivity.
  - reflexivity.
  - reflexivity.
  - reflexivity.
  - reflexivity.
Defined.

(** C3 (amended). [discover_shapefiles] only tests and lists the directory
    and prints: it leaves the files and the cache alone. A request that is
    rejected, answered from the cache or fails writes nothing and leaves the
    files alone. But when the module starts it writes, for every entry of
    [FIELD_MAPPING] in turn, a text file ["<layer>.txt"] that describes the
    entry; and a request that loads a layer, besides storing the payload in
    the cache, writes it to a file named after the layer. *)
Theorem C3_what_is_written {Pl : Platform} (FIELD_MAPPING : dict (dict string))
    (AVAILABLE_LAYERS : list string) :
  (forall (directory : string) (w : world),
     exists evs, snd (discover_shapefiles directory w) = log w evs /\ writes evs = []) /\
  (forall (fs0 : fsys) (available : list string) (w : world),
     startup FIELD_MAPPING (boot fs0) = (Ok available, w) ->
     writes (trace w) = map placeholder_write FIELD_MAPPING) /\
  (forall (layer_name : string) (w w' : world) (r : response),
     get_geodata FIELD_MAPPING AVAILABLE_LAYERS layer_name w = (Ok r, w') ->
     (status r = 200 -> geodata_cache w !! layer_name = None ->
      exists payload,
        content r = TextBody payload /\
        writes (trace w') = writes (trace w) ++ [EWrite layer_name payload] /\
        geodata_cache w' = <[layer_name := payload]> (geodata_cache w)) /\
     (status r <> 200 \/ geodata_cache w !! layer_name <> None ->
      writes (trace w') = writes (trace w) /\ fs w' = fs w /\
      geodata_cache w' = geodata_cache w)).
Proof.
  split; [| split].
  - intros directory w. apply discover_shapefiles_effect.
  - intros fs0 available w Hstart. unfold startup, bind in Hstart.
    destruct (discover_shapefiles_effect SHAPEFILE_FOLDER (boot fs0)) as (evs & Hw0 & Hevs).
    destruct (discover_shapefiles SHAPEFILE_FOLDER (boot fs0)) as [[names | e] w0];
      [| discriminate].
    simpl in Hw0. subst w0.
    destruct (for_each_write_placeholder_run FIELD_MAPPING (log (boot fs0) evs))
      as (w1 & Hloop & _ & Hw1).
    rewrite Hloop in Hstart. unfold ret in Hstart. injection Hstart as _ <-.
    rewrite Hw1. simpl. rewrite Hevs. reflexivity.
  - intros layer_name w w' r Hrun.
    apply get_geodata_inv in Hrun as (r' & [= <-] & Hs).
    destruct Hs as [Hnin | p Hin Hc | e w1 Hin Hc Hload | p w1 Hin Hc Hload].
    + split; [discriminate | auto].
    + split; [congruence | auto].
    + apply load_layer_frame in Hload as (Hfs & Hcache & _ & Hw).
      split; [discriminate |]. intros _. simpl.
      rewrite writes_app, Hw. simpl. rewrite app_nil_r. auto.
    + apply load_layer_frame in Hload as (Hfs & Hcache & _ & Hw).
      split.
      * intros _ _. exists p. split; [reflexivity |].
        rewrite after_save_cache, Hcache. split; [| reflexivity].
        destruct (after_save_trace w1 layer_name p) as (m & ->).
        rewrite writes_app, Hw. reflexivity.
      * intros [Hst | Hne]; [exfalso; apply Hst; reflexivity | contradiction].
Qed.

Lemma C3_what_is_written_witness :
  writes (trace (snd (startup Shipped.FIELD_MAPPING (Toy.boot Toy.disk0))))
  = map placeholder_write Shipped.FIELD_MAPPING /\
  writes (trace (snd (get_geodata Toy.registry Toy.layers "a" (Toy.boot Toy.disk0))))
  = [EWrite "a" "[Senate District #=12;]"] /\
  writes (trace (snd (get_geodata Toy.registry Toy.layers "b" (Toy.boot Toy.disk0)))) = [].
Proof.
  destruct (C3_what_is_written (Pl := Toy.platform) Shipped.FIELD_MAPPING Toy.layers)
    as (_ & Hstart & _).
  destruct (C3_what_is_written (Pl := Toy.platform) Toy.registry Toy.layers)
    as (_ & _ & Hserve).
  split; [| split].
  - apply (Hstart Toy.disk0 ["a"; "b"]). reflexivity.
  - destruct (Hserve "a" (Toy.boot Toy.disk0) _
                (response_class "[Senate District #=12;]" 200 "application/json")
                eq_refl) as [Hload _].
    destruct (Hload eq_refl eq_refl) as (payload & Hp & Hw & _).
    injection Hp as <-. exact Hw.
  - destruct (Hserve "b" (Toy.boot Toy.disk0) _
                (jsonify (error_body "Could not load data for layer: b") 500)
                eq_refl) as [_ Hfail].
    destruct Hfail as (Hw & _); [left; discriminate | exact Hw].
Defined.

(** C3, as stated, fails: the start-up code of the module leaves a file for
    each registry entry on the disk, and a request that loads a layer leaves
    a copy of the payload there. *)
Lemma C3_counterexample :
  Toy.files Toy.disk0 = [] /\
  dict_get (Toy.files (fs (snd (startup Shipped.FIELD_MAPPING (Toy.boot Toy.disk0)))))
           "Ohio_Senate_Districts_2024_to_2032.txt"
  = Some ("This file is for Ohio_Senate_Districts_2024_to_2032." +:+ newline +:+
          "Field mappings:" +:+ newline +:+
          "  - district: Senate District #" +:+ newline) /\
  dict_keys (Toy.files (fs (snd (startup Shipped.FIELD_MAPPING (Toy.boot Toy.disk0)))))
  = ["Ohio_County_Boundaries.txt"; "Ohio_Senate_Districts_2024_to_2032.txt";
     "Ohio_House_Districts_2024_to__2032.txt"; "Ohio_Municipal_Boundaries.txt";
     "Ohio_Township_Boundaries.txt"] /\
  Toy.files (fs (snd (get_geodata Toy.registry Toy.layers "a" (Toy.boot Toy.disk0))))
  = [("a", "[Senate District #=12;]")].
Proof. repeat split. Qed.


(** ** Threads *)

Section ThreadFacts.
Context {Pl : Platform}.
Variable FIELD_MAPPING : dict (dict string).
Variable AVAILABLE_LAYERS : list string.

Implicit Types (w : world) (t : thread) (ts : list thread).

Lemma step_at_single t w :
  step_at FIELD_MAPPING AVAILABLE_LAYERS 0 ([t], w)
  = ([fst (thread_step FIELD_MAPPING AVAILABLE_LAYERS t w)],
     snd (thread_step FIELD_MAPPING AVAILABLE_LAYERS t w)).
Proof.
  unfold step_at. cbn [fst snd lookup list_lookup].
  destruct (thread_step FIELD_MAPPING AVAILABLE_LAYERS t w). reflexivity.
Qed.

(** A thread that is never interrupted does what [get_geodata] does. *)
Lemma exec_alone layer_name w :
  exists r w',
    get_geodata FIELD_MAPPING AVAILABLE_LAYERS layer_name w = (Ok r, w') /\
    exec FIELD_MAPPING AVAILABLE_LAYERS [0; 0; 0; 0]%nat ([Arrived layer_name], w)
    = ([Done r], w').
Proof.
  destruct (get_geodata_served FIELD_MAPPING AVAILABLE_LAYERS layer_name w)
    as (r & w' & Heq & Hs).
  exists r, w'. split; [exact Heq |].
  unfold exec. cbn [fold_left]. rewrite step_at_single. cbn [thread_step].
  destruct Hs as [Hnin | p Hin Hc | e w1 Hin Hc Hload | p w1 Hin Hc Hload].
  - rewrite (bool_decide_eq_false_2 _ Hnin). cbn [negb fst snd].
    rewrite !step_at_single. reflexivity.
  - rewrite (bool_decide_eq_true_2 _ Hin), Hc. cbn [negb fst snd].
    rewrite !step_at_single. reflexivity.
  - rewrite (bool_decide_eq_true_2 _ Hin), Hc. cbn [negb fst snd].
    rewrite step_at_single. cbn [thread_step]. rewrite Hload. cbn [fst snd].
    rewrite !step_at_single. cbn [thread_step fst snd].
    cbv beta iota delta [bind print emit log]. cbn.
    rewrite <- ?app_assoc. reflexivity.
  - rewrite (bool_decide_eq_true_2 _ Hin), Hc. cbn [negb fst snd].
    rewrite step_at_single. cbn [thread_step]. rewrite Hload. cbn [fst snd].
    rewrite !step_at_single. cbn [thread_step fst snd].
    cbv beta iota delta [bind cache_store save_copy try_except open_write print emit
                           after_save].
    cbn. destruct (write_text (fs w1) layer_name p) as [[[] | e] fs']; cbn;
      rewrite <- ?app_assoc; reflexivity.
Qed.

(** Whoever is scheduled moves on, wherever the other threads are. *)
Lemma thread_step_progress t w :
  (remaining (fst (thread_step FIELD_MAPPING AVAILABLE_LAYERS t w)) <= pred (remaining t))%nat.
Proof.
  destruct t as [l | l | l p | l p | l e | r]; simpl; try lia.
  - destruct (bool_decide (l ∈ AVAILABLE_LAYERS)); simpl; [| lia].
    destruct (geodata_cache w !! l); simpl; lia.
  - destruct (load_layer FIELD_MAPPING l (shapefile_path l) w) as [[p | e] w']; simpl; lia.
Qed.

(** A step adds a load only when a pending thread stops being pending. *)
Lemma thread_step_loads t w :
  let '(t', w') := thread_step FIELD_MAPPING AVAILABLE_LAYERS t w in
  (loads (trace w') + pending t' <= loads (trace w) + pending t)%nat.
Proof.
  destruct t as [l | l | l p | l p | l e | r]; simpl; try lia.
  - destruct (bool_decide (l ∈ AVAILABLE_LAYERS)); simpl; [| lia].
    destruct (geodata_cache w !! l); simpl; lia.
  - destruct (load_layer FIELD_MAPPING l (shapefile_path l) w) as [[p | e] w'] eqn:Hload;
      apply load_layer_frame in Hload as (_ & _ & Hl & _); simpl; lia.
  - cbv beta iota delta [bind save_copy try_except open_write print emit].
    simpl. destruct (write_text (fs w) l p) as [[[] | e] fs']; simpl;
      rewrite !loads_app; unfold loads; simpl; lia.
  - rewrite !loads_app. unfold loads. simpl. lia.
Qed.

Lemma sum_pending_insert ts i t t' :
  ts !! i = Some t ->
  (sum_list_with pending (<[i := t']> ts) + pending t
   = sum_list_with pending ts + pending t')%nat.
Proof.
  revert i. induction ts as [| t0 ts IH]; intros i Hi; [discriminate |].
  destruct i as [| i]; simpl in *.
  - injection Hi as ->. lia.
  - specialize (IH i Hi). lia.
Qed.

Lemma step_at_loads i ts w :
  let s' := step_at FIELD_MAPPING AVAILABLE_LAYERS i (ts, w) in
  (loads (trace (snd s')) + sum_list_with pending (fst s')
   <= loads (trace w) + sum_list_with pending ts)%nat.
Proof.
  unfold step_at. simpl. destruct (ts !! i) as [t |] eqn:Hi; [| simpl; lia].
  pose proof (thread_step_loads t w) as Hstep.
  destruct (thread_step FIELD_MAPPING AVAILABLE_LAYERS t w) as [t' w']. simpl.
  pose proof (sum_pending_insert ts i t t' Hi). lia.
Qed.

Lemma exec_loads schedule ts w :
  let s' := exec FIELD_MAPPING AVAILABLE_LAYERS schedule (ts, w) in
  (loads (trace (snd s')) + sum_list_with pending (fst s')
   <= loads (trace w) + sum_list_with pending ts)%nat.
Proof.
  unfold exec.
  apply (fold_left_invariant
           (fun s => (loads (trace (snd s)) + sum_list_with pending (fst s)
                      <= loads (trace w) + sum_list_with pending ts)%nat)).
  - simpl. lia.
  - intros [ts1 w1] i _ IH. pose proof (step_at_loads i ts1 w1) as Hstep.
    simpl in *. lia.
Qed.

Lemma sum_pending_arrived n layer_name :
  sum_list_with pending (replicate n (Arrived layer_name)) = n.
Proof. induction n as [| n IH]; simpl; [reflexivity | rewrite IH; reflexivity]. Qed.

(** The outcome of [load_layer] is decided by what [gpd.read_file] finds. *)
Lemma load_layer_outcome layer_name path w w' :
  read_file (fs w) path = read_file (fs w') path ->
  fst (load_layer FIELD_MAPPING layer_name path w)
  = fst (load_layer FIELD_MAPPING layer_name path w').
Proof.
  intros Hread. rewrite !load_layer_run, Hread.
  destruct (read_file (fs w') path) as [gdf | e]; [| reflexivity].
  destruct (to_crs gdf) as [gdf' | e]; [| reflexivity].
  destruct (to_geojson gdf') as [g | e]; reflexivity.
Qed.

(** What the handler answers to a first request, in terms of the outcome
    of the load. *)
Lemma get_geodata_first layer_name w :
  layer_name ∈ AVAILABLE_LAYERS ->
  geodata_cache w !! layer_name = None ->
  fst (get_geodata FIELD_MAPPING AVAILABLE_LAYERS layer_name w)
  = Ok (outcome_response layer_name
          (fst (load_layer FIELD_MAPPING layer_name (shapefile_path layer_name) w))).
Proof.
  intros Hin Hc.
  destruct (get_geodata_served FIELD_MAPPING AVAILABLE_LAYERS layer_name w)
    as (r & w' & Heq & Hs).
  rewrite Heq. simpl.
  destruct Hs as [Hnin | p _ Hc' | e w1 _ _ Hload | p w1 _ _ Hload];
    [contradiction | congruence | |]; rewrite Hload; reflexivity.
Qed.

Section SameLayer.
Variable layer_name : string.
Variable w0 : world.
Hypothesis Havailable : layer_name ∈ AVAILABLE_LAYERS.
Hypothesis Hcopy_apart : forall (fs1 : fsys) (payload : string),
  read_file (snd (write_text fs1 layer_name payload)) (shapefile_path layer_name)
  = read_file fs1 (shapefile_path layer_name).

Lemma step_at_consistent i s :
  consistent FIELD_MAPPING layer_name w0 s ->
  consistent FIELD_MAPPING layer_name w0 (step_at FIELD_MAPPING AVAILABLE_LAYERS i s).
Proof.
  destruct s as [ts w]. unfold consistent. cbv zeta.
  set (o := fst (load_layer FIELD_MAPPING layer_name (shapefile_path layer_name) w0)).
  intros (Hread & Hcache & Hts).
  unfold step_at. cbn [fst snd] in *.
  destruct (ts !! i) as [t |] eqn:Hi; [| repeat split; assumption].
  pose proof (proj1 (Forall_lookup _ _) Hts i t Hi) as Ht.
  destruct t as [l | l | l p | l p | l e | r]; cbn [thread_step].
  - cbn in Ht. subst l. rewrite (bool_decide_eq_true_2 _ Havailable). cbn [negb].
    destruct (geodata_cache w !! layer_name) as [p |] eqn:Hc;
      (split; [exact Hread | split; [cbn [snd]; rewrite Hc; exact Hcache |]]);
      apply Forall_insert; try exact Hts.
    + cbn. rewrite (Hcache p eq_refl). reflexivity.
    + reflexivity.
  - cbn in Ht. subst l.
    pose proof (load_layer_outcome layer_name (shapefile_path layer_name) w w0 Hread)
      as Ho.
    destruct (load_layer FIELD_MAPPING layer_name (shapefile_path layer_name) w)
      as [[p | e] w'] eqn:Hload;
      apply load_layer_frame in Hload as (Hfs & Hc & _ & _);
      cbn [fst snd] in *;
      (split; [rewrite Hfs; exact Hread | split; [rewrite Hc; exact Hcache |]]);
      apply Forall_insert; try exact Hts; cbn; split; [reflexivity | | reflexivity |];
      symmetry; exact Ho.
  - cbn in Ht. destruct Ht as [-> Ho]. cbn.
    split; [exact Hread | split].
    + intros payload. rewrite lookup_insert_eq. intros [= <-]. exact Ho.
    + apply Forall_insert; [exact Hts |]. cbn. auto.
  - cbn in Ht. destruct Ht as [-> Ho].
    cbv beta iota delta [bind save_copy try_except open_write print emit].
    pose proof (Hcopy_apart (fs w) p) as Hw.
    destruct (write_text (fs w) layer_name p) as [[[] | e] fs']; cbn in *;
      (split; [rewrite Hw; exact Hread | split; [exact Hcache |]]);
      apply Forall_insert; try exact Hts; cbn; rewrite Ho; reflexivity.
  - cbn in Ht. destruct Ht as [-> Ho]. cbn.
    split; [exact Hread | split; [exact Hcache |]].
    apply Forall_insert; [exact Hts |]. cbn. rewrite Ho. reflexivity.
  - split; [exact Hread | split; [exact Hcache |]].
    rewrite list_insert_id by exact Hi. exact Hts.
Qed.

Lemma exec_consistent schedule n :
  geodata_cache w0 !! layer_name = None ->
  consistent FIELD_MAPPING layer_name w0
    (exec FIELD_MAPPING AVAILABLE_LAYERS schedule
       (replicate n (Arrived layer_name), w0)).
Proof.
  intros Hc. unfold exec.
  apply (fold_left_invariant (consistent FIELD_MAPPING layer_name w0)).
  - split; [reflexivity | split].
    + intros payload. cbn. rewrite Hc. discriminate.
    + cbn. apply Forall_replicate. reflexivity.
  - intros s i _. apply step_at_consistent.
Qed.

Lemma exec_same_layer schedule n :
  geodata_cache w0 !! layer_name = None ->
  let s := exec FIELD_MAPPING AVAILABLE_LAYERS schedule
             (replicate n (Arrived layer_name), w0) in
  (forall i r, fst s !! i = Some (Done r) ->
               fst (get_geodata FIELD_MAPPING AVAILABLE_LAYERS layer_name w0) = Ok r) /\
  (forall payload,
     geodata_cache (snd s) !! layer_name = Some payload ->
     fst (get_geodata FIELD_MAPPING AVAILABLE_LAYERS layer_name w0)
     = Ok (response_class payload 200 "application/json")).
Proof.
  intros Hc s. destruct (exec_consistent schedule n Hc) as (_ & Hcache & Hts).
  fold s in Hcache, Hts. cbv zeta in Hcache, Hts.
  rewrite (get_geodata_first layer_name w0 Havailable Hc). split.
  - intros i r Hi. pose proof (proj1 (Forall_lookup _ _) Hts i _ Hi) as Hr.
    cbn in Hr. rewrite Hr. reflexivity.
  - intros payload Hp. rewrite (Hcache payload Hp). reflexivity.
Qed.

End SameLayer.

End ThreadFacts.

(** C9 (amended). The module has no lock and shares no load between
    requests: when [n] threads serve first requests for the same layer that
    is not cached, each of them may run the load, so that up to [n] calls of
    [gpd.read_file] take place. As long as the copy that a request writes
    does not change what [gpd.read_file] finds, every caller still receives
    the response that a single request would have received, and the cache
    never holds anything but that payload. No thread ever waits for another:
    whenever it is scheduled it moves on, and it has answered after at most
    four steps of its own. *)
Theorem C9_concurrent_first_requests {Pl : Platform} (FIELD_MAPPING : dict (dict string))
    (AVAILABLE_LAYERS : list string) (layer_name : string) (w0 : world)
    (n : nat) (schedule : list nat) :
  layer_name ∈ AVAILABLE_LAYERS ->
  geodata_cache w0 !! layer_name = None ->
  (forall (fs1 : fsys) (payload : string),
     read_file (snd (write_text fs1 layer_name payload)) (shapefile_path layer_name)
     = read_file fs1 (shapefile_path layer_name)) ->
  let s := exec FIELD_MAPPING AVAILABLE_LAYERS schedule
             (replicate n (Arrived layer_name), w0) in
  (loads (trace (snd s)) <= loads (trace w0) + n)%nat /\
  (forall i r, fst s !! i = Some (Done r) ->
               fst (get_geodata FIELD_MAPPING AVAILABLE_LAYERS layer_name w0) = Ok r) /\
  (forall payload,
     geodata_cache (snd s) !! layer_name = Some payload ->
     fst (get_geodata FIELD_MAPPING AVAILABLE_LAYERS layer_name w0)
     = Ok (response_class payload 200 "application/json")) /\
  (forall (t : thread) (w : world),
     (remaining (fst (thread_step FIELD_MAPPING AVAILABLE_LAYERS t w))
      <= pred (remaining t))%nat).
Proof.
  intros Hin Hc Hcopy s. split; [| split; [| split]].
  - pose proof (exec_loads FIELD_MAPPING AVAILABLE_LAYERS schedule
                  (replicate n (Arrived layer_name)) w0) as Hloads.
    cbv zeta in Hloads. fold s in Hloads.
    rewrite sum_pending_arrived in Hloads. lia.
  - apply (exec_same_layer FIELD_MAPPING AVAILABLE_LAYERS layer_name w0 Hin Hcopy
             schedule n Hc).
  - apply (exec_same_layer FIELD_MAPPING AVAILABLE_LAYERS layer_name w0 Hin Hcopy
             schedule n Hc).
  - apply thread_step_progress.
Qed.

Lemma C9_concurrent_first_requests_witness :
  let s := exec Toy.registry Toy.layers [0; 1; 2; 1; 0; 0; 1; 2; 2; 0; 1; 2]%nat
             (replicate 3 (Arrived "a"), Toy.boot Toy.disk0) in
  (loads (trace (snd s)) <= loads (trace (Toy.boot Toy.disk0)) + 3)%nat /\
  (forall i r, fst s !! i = Some (Done r) ->
               fst (get_geodata Toy.registry Toy.layers "a" (Toy.boot Toy.disk0)) = Ok r) /\
  (forall payload,
     geodata_cache (snd s) !! "a" = Some payload ->
     fst (get_geodata Toy.registry Toy.layers "a" (Toy.boot Toy.disk0))
     = Ok (response_class payload 200 "application/json")) /\
  (forall (t : thread) (w : world),
     (remaining (fst (thread_step Toy.registry Toy.layers t w)) <= pred (remaining t))%nat).
Proof.
  apply (C9_concurrent_first_requests (Pl := Toy.platform) Toy.registry Toy.layers "a"
           (Toy.boot Toy.disk0) 3 [0; 1; 2; 1; 0; 0; 1; 2; 2; 0; 1; 2]%nat).
  - by_computation.
  - reflexivity.
  - intros fs1 payload. simpl.
    destruct (bool_decide ("a" ∈ Toy.locked fs1)); reflexivity.
Defined.

(** C9, as stated, fails: two threads that serve first requests for the
    same layer and are scheduled in turn both find the cache empty, and both
    load the file. *)
Lemma C9_counterexample :
  let s := exec Toy.registry Toy.layers [0; 1; 0; 1; 0; 1; 0; 1]%nat
             ([Arrived "a"; Arrived "a"], Toy.boot Toy.disk0) in
  geodata_cache (Toy.boot Toy.disk0) !! "a" = None /\
  fst s = [Done (response_class "[Senate District #=12;]" 200 "application/json");
           Done (response_class "[Senate District #=12;]" 200 "application/json")] /\
  loads (trace (Toy.boot Toy.disk0)) = 0%nat /\
  loads (trace (snd s)) = 2%nat.
Proof. repeat split. Qed.

(** * Further properties *)

(** ** Strings and paths *)

Lemma append_cons x (a b : string) : String x a +:+ b = String x (a +:+ b).
Proof. reflexivity. Qed.

Lemma append_nil (b : string) : EmptyString +:+ b = b.
Proof. reflexivity. Qed.

Lemma append_assoc_str (a b c : string) : (a +:+ b) +:+ c = a +:+ (b +:+ c).
Proof.
  induction a as [| x a IH]; rewrite ?append_nil, ?append_cons; [reflexivity |].
  rewrite IH. reflexivity.
Qed.

Lemma length_append_str (a b : string) :
  String.length (a +:+ b) = (String.length a + String.length b)%nat.
Proof.
  induction a as [| x a IH]; rewrite ?append_nil, ?append_cons; simpl; [reflexivity |].
  rewrite IH. reflexivity.
Qed.

Lemma rfind_from_app c s1 s2 i last :
  Str.rfind_from c (s1 +:+ s2) i last
  = Str.rfind_from c s2 (i + Z.of_nat (String.length s1)) (Str.rfind_from c s1 i last).
Proof.
  revert i last.
  induction s1 as [| a s1 IH]; intros i last; rewrite ?append_nil, ?append_cons; simpl.
  - rewrite Z.add_0_r. reflexivity.
  - rewrite IH. f_equal. lia.
Qed.

Lemma rfind_from_absent c s i last :
  str_exists (fun a => Ascii.eqb a c) s = false -> Str.rfind_from c s i last = last.
Proof.
  revert i last. induction s as [| a s IH]; intros i last H; simpl in *; [reflexivity |].
  apply orb_false_iff in H as [Ha Hs]. rewrite Ha. apply IH, Hs.
Qed.

Lemma get_append_here pre a s : String.get (String.length pre) (pre +:+ String a s) = Some a.
Proof.
  induction pre as [| x pre IH]; rewrite ?append_nil, ?append_cons; simpl;
    [reflexivity | exact IH].
Qed.

Lemma has_non_dot_app pre s rest :
  has_non_dot (pre +:+ s +:+ rest) (String.length pre) (String.length s)
  = str_exists (fun a => negb (Ascii.eqb a ".")) s.
Proof.
  revert pre. induction s as [| a s IH]; intros pre; simpl; [reflexivity |].
  rewrite append_cons, get_append_here.
  destruct (Ascii.eqb a ".") eqn:Ha; simpl; [| reflexivity].
  specialize (IH (pre +:+ String a EmptyString)).
  rewrite append_assoc_str, length_append_str, (append_cons a EmptyString), append_nil in IH.
  simpl in IH. rewrite Nat.add_1_r in IH. exact IH.
Qed.

Lemma substring_prefix s t : String.substring 0 (String.length s) (s +:+ t) = s.
Proof.
  induction s as [| a s IH]; rewrite ?append_nil, ?append_cons; simpl;
    [destruct t; reflexivity | rewrite IH; reflexivity].
Qed.

Lemma substring_all t : String.substring 0 (String.length t) t = t.
Proof. induction t as [| a t IH]; simpl; [reflexivity | rewrite IH; reflexivity]. Qed.

Lemma substring_suffix s t :
  String.substring (String.length s) (String.length t) (s +:+ t) = t.
Proof.
  induction s as [| a s IH]; rewrite ?append_nil, ?append_cons; simpl;
    [apply substring_all | exact IH].
Qed.

Lemma endswith_append s suffix : Str.endswith (s +:+ suffix) suffix = true.
Proof.
  unfold Str.endswith. rewrite length_append_str.
  destruct (Nat.leb_spec (String.length suffix) (String.length s + String.length suffix)); [| lia].
  replace (String.length s + String.length suffix - String.length suffix)%nat
    with (String.length s) by lia.
  rewrite substring_suffix. apply String.eqb_refl.
Qed.

(** [splitext] takes the [".shp"] off a plain file name. *)
Lemma splitext_shp root :
  str_exists (fun a => Ascii.eqb a "/") root = false ->
  str_exists (fun a => negb (Ascii.eqb a ".")) root = true ->
  splitext (root +:+ ".shp") = (root, ".shp").
Proof.
  intros Hsep Hdot.
  assert (Hsi : Str.rfind "/" (root +:+ ".shp") = -1).
  { unfold Str.rfind. rewrite rfind_from_app, (rfind_from_absent _ _ _ _ Hsep). reflexivity. }
  assert (Hdi : Str.rfind "." (root +:+ ".shp") = Z.of_nat (String.length root)).
  { unfold Str.rfind. rewrite rfind_from_app. reflexivity. }
  pose proof (has_non_dot_app EmptyString root ".shp") as Hnd.
  rewrite append_nil, Hdot in Hnd. simpl in Hnd.
  unfold splitext. rewrite Hsi, Hdi.
  destruct (Z.ltb_spec (-1) (Z.of_nat (String.length root))) as [_ | Hlt]; [| lia].
  replace (Z.to_nat (-1 + 1)) with 0%nat by reflexivity.
  replace (Z.to_nat (Z.of_nat (String.length root) - (-1 + 1))) with (String.length root) by lia.
  rewrite Hnd.
  unfold Str.take, Str.drop. rewrite Nat2Z.id, length_append_str.
  replace (String.length root + String.length ".shp" - String.length root)%nat
    with (String.length ".shp") by lia.
  rewrite substring_prefix, substring_suffix. reflexivity.
Qed.

Lemma prefix_slash_absent root rest :
  str_exists (fun a => Ascii.eqb a "/") root = false ->
  String.prefix "/" (root +:+ String "." rest) = false.
Proof.
  destruct root as [| a root]; intros H; rewrite ?append_nil, ?append_cons; [reflexivity |].
  simpl in H. apply orb_false_iff in H as [Ha _].
  change (String.prefix "/" (String a (root +:+ String "." rest)))
    with (if ascii_dec "/" a then String.prefix "" (root +:+ String "." rest) else false).
  destruct (ascii_dec "/" a) as [<- | Hne]; [discriminate Ha | reflexivity].
Qed.

(** ** Start-up, discovery and the two routes *)

Section MoreServerFacts.
Context {Pl : Platform}.
Variable FIELD_MAPPING : dict (dict string).
Variable AVAILABLE_LAYERS : list string.

Lemma write_placeholder_quiet item (w : world) :
  exists w', write_placeholder item w = (Ok tt, w') /\
             geodata_cache w' = geodata_cache w /\
             loads (trace w') = loads (trace w).
Proof.
  destruct item as [filename_key field_details].
  cbv beta iota delta [write_placeholder bind try_except open_write print emit ret].
  simpl.
  destruct (write_text (fs w) (filename_key +:+ ".txt")
              (placeholder_text filename_key field_details)) as [[[] | e] fs'];
    simpl; eexists; (split; [reflexivity |]); simpl; (split; [reflexivity |]);
    rewrite !loads_app; unfold loads; simpl; lia.
Qed.

Lemma for_each_write_placeholder_quiet (l : dict (dict string)) (w : world) :
  exists w', for_each write_placeholder l w = (Ok tt, w') /\
             geodata_cache w' = geodata_cache w /\
             loads (trace w') = loads (trace w).
Proof.
  revert w. induction l as [| item l IH]; intros w; simpl.
  - exists w. repeat split.
  - destruct (write_placeholder_quiet item w) as (w1 & Hrun & Hc1 & Hl1).
    destruct (IH w1) as (w2 & Hrest & Hc2 & Hl2).
    exists w2. unfold bind. rewrite Hrun, Hrest. repeat split; congruence.
Qed.

Lemma discover_shapefiles_quiet directory (w : world) :
  exists evs, snd (discover_shapefiles directory w) = log w evs /\ loads evs = 0%nat.
Proof.
  cbv beta iota delta [discover_shapefiles bind os_path_isdir os_listdir print emit ret log].
  simpl. destruct (isdir (fs w) directory); simpl.
  - destruct (listdir (fs w) directory) as [listing | e]; simpl.
    + exists [EIsdir directory; EListdir directory;
              EPrint (MsgDiscovered (shapefile_names listing))].
      rewrite <- ?app_assoc. split; reflexivity.
    + exists [EIsdir directory; EListdir directory].
      rewrite <- ?app_assoc. split; reflexivity.
  - exists [EIsdir directory; EPrint (MsgDirNotFound directory)].
    rewrite <- ?app_assoc. split; reflexivity.
Qed.

Lemma startup_after_discovery (fs0 : fsys) (names : list string) :
  fst (discover_shapefiles SHAPEFILE_FOLDER (boot fs0)) = Ok names ->
  exists w, startup FIELD_MAPPING (boot fs0) = (Ok names, w) /\
            geodata_cache w = ∅ /\ loads (trace w) = 0%nat.
Proof.
  intros Hd. unfold startup, bind.
  destruct (discover_shapefiles_quiet SHAPEFILE_FOLDER (boot fs0)) as (evs & Hw0 & Hevs).
  destruct (discover_shapefiles SHAPEFILE_FOLDER (boot fs0)) as [r w0].
  simpl in Hd, Hw0. subst r w0.
  destruct (for_each_write_placeholder_quiet FIELD_MAPPING (log (boot fs0) evs))
    as (w1 & Hloop & Hc & Hl).
  rewrite Hloop. exists w1. split; [reflexivity |]. split; [rewrite Hc; reflexivity |].
  rewrite Hl. simpl. exact Hevs.
Qed.

(** X3. Start-up is lazy and does not depend on the placeholder files: when
    discovery succeeds, the module starts with the discovered names whatever
    becomes of the writes, the cache is empty and no dataset has been read. *)
Theorem X3_startup_is_lazy (fs0 : fsys) (names : list string) :
  fst (discover_shapefiles SHAPEFILE_FOLDER (boot fs0)) = Ok names ->
  exists w, startup FIELD_MAPPING (boot fs0) = (Ok names, w) /\
            geodata_cache w = ∅ /\ loads (trace w) = 0%nat.
Proof. apply startup_after_discovery. Qed.

(** X1. Without a data directory the module still starts: discovery prints
    the warning and returns no layer without listing anything, the list of
    layers is empty, and every data request is answered with 404. *)
Theorem X1_missing_directory (fs0 : fsys) :
  isdir fs0 SHAPEFILE_FOLDER = false ->
  discover_shapefiles SHAPEFILE_FOLDER (boot fs0)
  = (Ok [], log (boot fs0) [EIsdir SHAPEFILE_FOLDER;
                            EPrint (MsgDirNotFound SHAPEFILE_FOLDER)]) /\
  (exists w, startup FIELD_MAPPING (boot fs0) = (Ok [], w) /\
             get_layers [] w = (Ok (jsonify (JArr []) 200), w)) /\
  (forall layer_name (w1 : world),
     get_geodata FIELD_MAPPING [] layer_name w1
     = (Ok (jsonify (error_body "Layer not found") 404), w1)).
Proof.
  intros Hdir.
  pose proof (discover_shapefiles_missing SHAPEFILE_FOLDER (boot fs0) Hdir) as Hd.
  split; [exact Hd | split].
  - destruct (startup_after_discovery fs0 []) as (w & Hs & _); [rewrite Hd; reflexivity |].
    exists w. split; [exact Hs | reflexivity].
  - intros layer_name w1. unfold get_geodata.
    rewrite bool_decide_eq_false_2 by apply not_elem_of_nil. reflexivity.
Qed.

(** X2. An error of [os.listdir] is not caught: start-up raises it right
    after the listing, before any placeholder file is written. *)
Theorem X2_listing_error_stops_startup (fs0 : fsys) (e : string) :
  isdir fs0 SHAPEFILE_FOLDER = true ->
  listdir fs0 SHAPEFILE_FOLDER = Raise e ->
  startup FIELD_MAPPING (boot fs0)
  = (Raise e, log (boot fs0) [EIsdir SHAPEFILE_FOLDER; EListdir SHAPEFILE_FOLDER]).
Proof.
  intros Hdir Hls.
  cbv beta iota delta [startup discover_shapefiles bind os_path_isdir os_listdir log boot].
  simpl. rewrite Hdir. simpl. rewrite Hls. reflexivity.
Qed.

(** X4. The two routes agree: [get_layers] answers 200 with the array of
    the available layers and changes nothing, and a name is in that array
    exactly when [get_geodata] does not answer 404 for it. *)
Theorem X4_listed_layers_are_served (layer_name : string) (w1 w2 : world) :
  exists items r,
    get_layers AVAILABLE_LAYERS w1 = (Ok (jsonify (JArr items) 200), w1) /\
    fst (get_geodata FIELD_MAPPING AVAILABLE_LAYERS layer_name w2) = Ok r /\
    (JStr layer_name ∈ items <-> status r <> 404).
Proof.
  destruct (get_geodata_served FIELD_MAPPING AVAILABLE_LAYERS layer_name w2)
    as (r & w' & Heq & Hs).
  exists (map JStr AVAILABLE_LAYERS), r. split; [reflexivity |].
  rewrite Heq. split; [reflexivity |].
  assert (Hitems : JStr layer_name ∈ map JStr AVAILABLE_LAYERS
                   <-> layer_name ∈ AVAILABLE_LAYERS).
  { rewrite !list_elem_of_In, in_map_iff. split.
    - intros (x & [= ->] & Hx). exact Hx.
    - intros Hx. exists layer_name. auto. }
  rewrite Hitems.
  destruct Hs as [Hnin | p Hin Hc | e w1' Hin Hc Hload | p w1' Hin Hc Hload]; simpl.
  - split; [contradiction | intros Hne; exfalso; apply Hne; reflexivity].
  - split; [discriminate | auto].
  - split; [discriminate | auto].
  - split; [discriminate | auto].
Qed.

(** X5. Discovery returns one name for every entry of the directory that
    ends in [".shp"]: nothing is lost and nothing is merged. *)
Theorem X5_one_layer_per_shp_entry (directory : string) (w : world) (listing : list string) :
  isdir (fs w) directory = true ->
  listdir (fs w) directory = Ok listing ->
  exists names,
    fst (discover_shapefiles directory w) = Ok names /\
    length names
    = length (List.filter (fun filename => Str.endswith filename ".shp") listing).
Proof.
  intros Hdir Hls. rewrite (discover_shapefiles_listing directory w listing Hdir Hls).
  eexists. split; [reflexivity |].
  rewrite (Permutation_length (sorted_Permutation _)).
  unfold shapefile_names. rewrite length_map.
  clear. induction listing as [| f l IH]; [reflexivity |].
  rewrite filter_cons. cbn [List.filter].
  destruct (decide (Is_true (Str.endswith f ".shp"))) as [Ht | Hf].
  - apply Is_true_true in Ht. rewrite Ht. simpl. rewrite IH. reflexivity.
  - apply Is_true_false in Hf. rewrite Hf. exact IH.
Qed.

(** X6. The file that a request opens is the file that was discovered: for
    a name [root] without a slash and not made of dots only, the entry
    [root.shp] is discovered as layer [root], and the handler reads
    [data/root.shp]. *)
Theorem X6_discovered_file_is_the_one_opened (directory : string) (w : world)
    (listing : list string) (root : string) :
  str_exists (fun a => Ascii.eqb a "/") root = false ->
  str_exists (fun a => negb (Ascii.eqb a ".")) root = true ->
  isdir (fs w) directory = true ->
  listdir (fs w) directory = Ok listing ->
  (root +:+ ".shp") ∈ listing ->
  splitext (root +:+ ".shp") = (root, ".shp") /\
  (exists names, fst (discover_shapefiles directory w) = Ok names /\ root ∈ names) /\
  shapefile_path root = SHAPEFILE_FOLDER +:+ "/" +:+ root +:+ ".shp".
Proof.
  intros Hsep Hdot Hdir Hls Hin.
  pose proof (splitext_shp root Hsep Hdot) as Hsplit.
  split; [exact Hsplit | split].
  - rewrite (discover_shapefiles_listing directory w listing Hdir Hls). eexists.
    split; [reflexivity |]. rewrite (sorted_Permutation (shapefile_names listing)).
    apply elem_of_shapefile_names. exists (root +:+ ".shp").
    split; [exact Hin | split; [apply endswith_append | rewrite Hsplit; reflexivity]].
  - unfold shapefile_path, os_path_join.
    rewrite (prefix_slash_absent root "shp" Hsep). reflexivity.
Qed.

(** X7. [get_geodata] never lets an exception out. It answers with status
    200, 404 or 500 and a JSON mime type; 404 exactly for the names that are
    not available; a 200 carries the payload that the cache holds for the
    layer afterwards, and any other answer is an error object and leaves the
    cache as it was. *)
Theorem X7_handler_always_answers (layer_name : string) (w : world) :
  exists r w',
    get_geodata FIELD_MAPPING AVAILABLE_LAYERS layer_name w = (Ok r, w') /\
    mimetype r = "application/json" /\
    (status r = 200 \/ status r = 404 \/ status r = 500) /\
    (status r = 404 <-> layer_name ∉ AVAILABLE_LAYERS) /\
    (status r = 200 ->
     exists payload, content r = TextBody payload /\
                     geodata_cache w' !! layer_name = Some payload) /\
    (status r <> 200 ->
     geodata_cache w' = geodata_cache w /\
     exists msg, content r = JsonBody (JObj [("error", JStr msg)])).
Proof.
  destruct (get_geodata_served FIELD_MAPPING AVAILABLE_LAYERS layer_name w)
    as (r & w' & Heq & Hs).
  exists r, w'. split; [exact Heq |].
  destruct Hs as [Hnin | p Hin Hc | e w1 Hin Hc Hload | p w1 Hin Hc Hload]; simpl.
  - split; [reflexivity |]. split; [auto |]. split; [tauto |].
    split; [discriminate |]. intros _. split; [reflexivity | eauto].
  - split; [reflexivity |]. split; [auto |].
    split; [split; [discriminate | contradiction] |].
    split; [eauto |]. intros Hne. exfalso. apply Hne. reflexivity.
  - apply load_layer_frame in Hload as (_ & Hcache & _).
    split; [reflexivity |]. split; [auto |].
    split; [split; [discriminate | contradiction] |].
    split; [discriminate |]. intros _. split; [exact Hcache | eauto].
  - split; [reflexivity |]. split; [auto |].
    split; [split; [discriminate | contradiction] |].
    split.
    + intros _. exists p. split; [reflexivity |].
      rewrite after_save_cache. apply lookup_insert_eq.
    + intros Hne. exfalso. apply Hne. reflexivity.
Qed.


(** X8. A copy that cannot be written does not harm the request: the
    [IOError] is reported, the payload is cached and the answer is the 200
    response with the payload. *)
Theorem X8_copy_failure_is_tolerated (layer_name payload e : string) (w w1 : world)
    (fs' : fsys) :
  layer_name ∈ AVAILABLE_LAYERS ->
  geodata_cache w !! layer_name = None ->
  load_layer FIELD_MAPPING layer_name (shapefile_path layer_name) w = (Ok payload, w1) ->
  write_text (fs w) layer_name payload = (Raise e, fs') ->
  get_geodata FIELD_MAPPING AVAILABLE_LAYERS layer_name w
  = (Ok (response_class payload 200 "application/json"),
     {| fs := fs';
        geodata_cache := <[layer_name := payload]> (geodata_cache w);
        trace := trace w1 ++ [EWrite layer_name payload; EPrint (MsgSaveError e);
                              EPrint (MsgLoaded layer_name)] |}).
Proof.
  intros Hin Hc Hload Hw.
  destruct (get_geodata_served FIELD_MAPPING AVAILABLE_LAYERS layer_name w)
    as (r & w' & Heq & Hs).
  destruct Hs as [Hnin | p _ Hc' | e' w1' _ _ Hload' | p w1' _ _ Hload'];
    [contradiction | congruence | congruence |].
  rewrite Hload in Hload'. injection Hload' as <- <-.
  rewrite Heq. f_equal.
  apply load_layer_frame in Hload as (Hfs & Hcache & _).
  unfold after_save. rewrite Hfs, Hw, Hcache. reflexivity.
Qed.

(** X9. A failure is not remembered: after a 500, once the files are such
    that the load succeeds, the next request for the layer is answered with
    the payload. *)
Theorem X9_failure_is_not_cached (layer_name payload : string) (w w' : world)
    (r : response) (new_fs : fsys) :
  get_geodata FIELD_MAPPING AVAILABLE_LAYERS layer_name w = (Ok r, w') ->
  status r = 500 ->
  let w2 := perform FIELD_MAPPING AVAILABLE_LAYERS (FsChange new_fs) w' in
  fst (load_layer FIELD_MAPPING layer_name (shapefile_path layer_name) w2) = Ok payload ->
  fst (get_geodata FIELD_MAPPING AVAILABLE_LAYERS layer_name w2)
  = Ok (response_class payload 200 "application/json").
Proof.
  intros Hrun Hst w2 Hload.
  apply get_geodata_inv in Hrun as (r' & [= <-] & Hs).
  destruct Hs as [Hnin | p Hin Hc | e w1 Hin Hc Hload1 | p w1 Hin Hc Hload1];
    try discriminate Hst.
  apply load_layer_frame in Hload1 as (_ & Hcache & _).
  assert (Hc2 : geodata_cache w2 !! layer_name = None).
  { unfold w2. simpl. rewrite Hcache. exact Hc. }
  destruct (get_geodata_served FIELD_MAPPING AVAILABLE_LAYERS layer_name w2)
    as (r2 & w2' & Heq & Hs2).
  rewrite Heq. simpl.
  destruct Hs2 as [Hnin | p _ Hc' | e' w3 _ _ Hload' | p w3 _ _ Hload'];
    [contradiction | congruence | |]; rewrite Hload' in Hload; simpl in Hload; congruence.
Qed.

(** X10. Whatever requests are served and however the files change, the
    cache of a server only ever has entries for available layers. *)
Theorem X10_only_available_layers_are_cached (actions : list action) (fs0 : fsys) :
  dom (geodata_cache (run FIELD_MAPPING AVAILABLE_LAYERS actions (boot fs0)))
  ⊆ (list_to_set AVAILABLE_LAYERS : gset string).
Proof.
  unfold run.
  apply (fold_left_invariant
           (fun w : world => dom (geodata_cache w) ⊆ (list_to_set AVAILABLE_LAYERS : gset string))).
  - simpl. rewrite dom_empty_L. apply empty_subseteq.
  - intros w a _ IH. destruct a as [layer_name | new_fs]; simpl; [| exact IH].
    destruct (get_geodata_served FIELD_MAPPING AVAILABLE_LAYERS layer_name w)
      as (r & w' & Heq & Hs).
    rewrite Heq. simpl.
    destruct Hs as [Hnin | p Hin Hc | e w1 Hin Hc Hload | p w1 Hin Hc Hload].
    + exact IH.
    + exact IH.
    + apply load_layer_frame in Hload as (_ & Hcache & _). simpl. rewrite Hcache. exact IH.
    + apply load_layer_frame in Hload as (_ & Hcache & _).
      rewrite after_save_cache, Hcache, dom_insert_L.
      apply union_least; [| exact IH].
      apply singleton_subseteq_l, elem_of_list_to_set. exact Hin.
Qed.

Lemma load_layer_touches layer_name path (w : world) :
  exists evs,
    snd (load_layer FIELD_MAPPING layer_name path w) = log w evs /\
    forall ev, ev ∈ evs -> ev = EReadFile path \/ exists m, ev = EPrint m.
Proof.
  rewrite load_layer_run.
  assert (Hevs : forall ev,
             ev ∈ mapped_events layer_name path (dict_get FIELD_MAPPING layer_name) ->
             ev = EReadFile path \/ exists m, ev = EPrint m).
  { intros ev. unfold mapped_events, parsed_events, read_events. simpl.
    rewrite !elem_of_cons, elem_of_nil.
    intros [-> | [-> | [-> | [-> | []]]]]; eauto. }
  assert (Hsub1 : forall ev, ev ∈ read_events layer_name path ->
                             ev ∈ mapped_events layer_name path (dict_get FIELD_MAPPING layer_name)).
  { intros ev. unfold mapped_events, parsed_events. rewrite !elem_of_app. auto. }
  assert (Hsub2 : forall ev, ev ∈ parsed_events layer_name path ->
                             ev ∈ mapped_events layer_name path (dict_get FIELD_MAPPING layer_name)).
  { intros ev. unfold mapped_events. rewrite !elem_of_app. auto. }
  destruct (read_file (fs w) path) as [gdf | e]; [| eauto].
  destruct (to_crs gdf) as [gdf' | e]; [| eauto].
  destruct (to_geojson gdf') as [g | e]; [| eauto].
  eauto.
Qed.

(** X17. A request only adds events to the trace, and beside printing it
    does nothing but, for an available layer, read [data/<layer>.shp] and
    write the file named after the layer: it never lists a directory and
    never reads or writes any other path. *)
Theorem X17_request_touches_only_its_layer (layer_name : string) (w : world) :
  exists evs,
    trace (snd (get_geodata FIELD_MAPPING AVAILABLE_LAYERS layer_name w)) = trace w ++ evs /\
    forall ev, ev ∈ evs ->
      (exists m, ev = EPrint m) \/ ev = ETraceback \/
      (layer_name ∈ AVAILABLE_LAYERS /\
       (ev = EReadFile (shapefile_path layer_name) \/
        exists text, ev = EWrite layer_name text)).
Proof.
  destruct (get_geodata_served FIELD_MAPPING AVAILABLE_LAYERS layer_name w)
    as (r & w' & Heq & Hs).
  rewrite Heq. simpl.
  destruct Hs as [Hnin | p Hin Hc | e w1 Hin Hc Hload | p w1 Hin Hc Hload].
  - exists []. rewrite app_nil_r. split; [reflexivity |].
    intros ev Hev. exfalso. exact (not_elem_of_nil _ Hev).
  - exists []. rewrite app_nil_r. split; [reflexivity |].
    intros ev Hev. exfalso. exact (not_elem_of_nil _ Hev).
  - destruct (load_layer_touches layer_name (shapefile_path layer_name) w)
      as (evs & Hw1 & Hevs).
    rewrite Hload in Hw1. simpl in Hw1. subst w1.
    exists (evs ++ [EPrint (MsgCritical layer_name e); ETraceback]).
    simpl. rewrite app_assoc. split; [reflexivity |].
    intros ev Hev. apply elem_of_app in Hev as [Hev | Hev].
    + destruct (Hevs ev Hev) as [-> | Hm]; [right; right; auto | left; exact Hm].
    + rewrite !elem_of_cons, elem_of_nil in Hev.
      destruct Hev as [-> | [-> | []]]; eauto.
  - destruct (load_layer_touches layer_name (shapefile_path layer_name) w)
      as (evs & Hw1 & Hevs).
    rewrite Hload in Hw1. simpl in Hw1. subst w1.
    destruct (after_save_trace (log w evs) layer_name p) as (m & Htrace).
    exists (evs ++ [EWrite layer_name p; EPrint m; EPrint (MsgLoaded layer_name)]).
    rewrite Htrace. simpl. rewrite app_assoc. split; [reflexivity |].
    intros ev Hev. apply elem_of_app in Hev as [Hev | Hev].
    + destruct (Hevs ev Hev) as [-> | Hm]; [right; right; auto | left; exact Hm].
    + rewrite !elem_of_cons, elem_of_nil in Hev.
      destruct Hev as [-> | [-> | [-> | []]]]; eauto 6.
Qed.

End MoreServerFacts.

(** ** More on the field mapping *)

(** X11. A field that the feature lacks is left out without an error: a
    key is absent from the mapped record when no entry of the policy whose
    field the feature has is displayed under it and, for "Title", when the
    feature also lacks the designated title field. *)
Theorem X11_missing_field_is_omitted (mapping : dict string) (original : dict json)
    (k : string) :
  (forall original_key, (original_key, k) ∈ mapping -> original_key <> "__title__" ->
                        dict_get original original_key = None) ->
  (k = "Title" -> forall title_field, dict_get mapping "__title__" = Some title_field ->
                                      dict_get original title_field = None) ->
  dict_get (new_properties mapping original) k = None.
Proof.
  intros Hrename Htitle.
  destruct (dict_get (new_properties mapping original) k) as [v |] eqn:Hget; [| reflexivity].
  exfalso. apply new_properties_origin in Hget as [[Hk (tf & Htf & Hv)] | (ok & Hin & Hne & Hv)].
  - rewrite (Htitle Hk tf Htf) in Hv. discriminate.
  - rewrite (Hrename ok Hin Hne) in Hv. discriminate.
Qed.

Lemma dict_set_keys {V} (d : dict V) k v :
  dict_keys (dict_set d k v)
  = if dict_mem k d then dict_keys d else dict_keys d ++ [k].
Proof.
  unfold dict_mem. induction d as [| [k' v'] d IH]; simpl; [reflexivity |].
  destruct (String.eqb k' k) eqn:Hk; simpl; [reflexivity |].
  unfold dict_keys in *. rewrite IH.
  destruct (dict_get d k); reflexivity.
Qed.

Lemma dict_mem_keys {V} (d : dict V) k : dict_mem k d = false -> k ∉ dict_keys d.
Proof.
  unfold dict_mem. induction d as [| [k' v'] d IH]; simpl; intros H.
  - apply not_elem_of_nil.
  - destruct (String.eqb_spec k' k) as [-> | Hne]; [discriminate |].
    apply not_elem_of_cons. split; [congruence | apply IH, H].
Qed.

Lemma dict_set_NoDup {V} (d : dict V) k v :
  NoDup (dict_keys d) -> NoDup (dict_keys (dict_set d k v)).
Proof.
  intros Hnd. rewrite dict_set_keys. destruct (dict_mem k d) eqn:Hm; [exact Hnd |].
  apply NoDup_app. split; [exact Hnd | split].
  - intros x Hx Hx'. apply list_elem_of_singleton in Hx'. subst x.
    exact (dict_mem_keys d k Hm Hx).
  - apply NoDup_singleton.
Qed.

Lemma dict_set_length {V} (d : dict V) k v :
  (length (dict_set d k v) <= S (length d))%nat.
Proof.
  induction d as [| [k' v'] d IH]; simpl; [lia |].
  destruct (String.eqb k' k); simpl; lia.
Qed.

(** X12. The mapped record is a proper dict: its keys are pairwise
    distinct, whatever the policy and the attributes. *)
Theorem X12_mapped_keys_are_distinct (mapping : dict string) (original : dict json) :
  NoDup (dict_keys (new_properties mapping original)).
Proof.
  unfold new_properties.
  apply (fold_left_invariant (fun new : dict json => NoDup (dict_keys new))).
  - unfold set_title. destruct (dict_get mapping "__title__") as [tf |]; [| apply NoDup_nil_2].
    destruct (str_truthy tf); [| apply NoDup_nil_2].
    destruct (dict_get original tf); [| apply NoDup_nil_2].
    apply dict_set_NoDup, NoDup_nil_2.
  - intros new [ok nk] _ Hnew. unfold rename_step.
    destruct (String.eqb ok "__title__"); [exact Hnew |].
    destruct (dict_get original ok); [| exact Hnew].
    apply dict_set_NoDup, Hnew.
Qed.

Lemma rename_loop_length original (l : dict string) (init : dict json) :
  (length (fold_left (rename_step original) l init)
   <= length init + length (List.filter is_rename_entry l))%nat.
Proof.
  revert init. induction l as [| [ok nk] l IH]; intros init; simpl; [lia |].
  unfold is_rename_entry at 1. simpl.
  destruct (String.eqb ok "__title__") eqn:Hok; simpl.
  - apply IH.
  - specialize (IH (match dict_get original ok with
                    | Some v => dict_set init nk v
                    | None => init
                    end)).
    destruct (dict_get original ok) as [v |].
    + pose proof (dict_set_length init nk v). lia.
    + lia.
Qed.

Lemma title_entry_counts (mapping : dict string) tf :
  dict_get mapping "__title__" = Some tf ->
  (S (length (List.filter is_rename_entry mapping)) <= length mapping)%nat.
Proof.
  induction mapping as [| [k v] l IH]; simpl; [discriminate |].
  unfold is_rename_entry at 1. simpl.
  destruct (String.eqb k "__title__"); simpl.
  - intros _. pose proof (List.filter_length_le is_rename_entry l). lia.
  - intros H. specialize (IH H). lia.
Qed.

(** X13. The mapped record has at most as many entries as the policy. *)
Theorem X13_no_more_properties_than_entries (mapping : dict string) (original : dict json) :
  (length (new_properties mapping original) <= length mapping)%nat.
Proof.
  unfold new_properties.
  pose proof (rename_loop_length original mapping
                (set_title (dict_get mapping "__title__") original)) as Hloop.
  pose proof (List.filter_length_le is_rename_entry mapping) as Hle.
  unfold set_title in *.
  destruct (dict_get mapping "__title__") as [tf |] eqn:Htf;
    [| cbn [length] in Hloop; lia].
  pose proof (title_entry_counts mapping tf Htf) as Hcount.
  destruct (str_truthy tf); [| cbn [length] in Hloop; lia].
  destruct (dict_get original tf); cbn [length dict_set] in Hloop |- *; lia.
Qed.

(** X16. A feature without attributes is mapped to a feature without
    properties, whatever the policy. *)
Theorem X16_no_attributes_no_properties (mapping : dict string) :
  new_properties mapping [] = [].
Proof.
  unfold new_properties.
  apply (fold_left_invariant (fun new : dict json => new = [])).
  - unfold set_title. destruct (dict_get mapping "__title__") as [tf |]; [| reflexivity].
    destruct (str_truthy tf); reflexivity.
  - intros new [ok nk] _ ->. unfold rename_step.
    destruct (String.eqb ok "__title__"); reflexivity.
Qed.

(** ** The registry and the handler *)

Section PolicyFacts.
Context {Pl : Platform}.
Variable AVAILABLE_LAYERS : list string.

Lemma get_geodata_load_ext (FM1 FM2 : dict (dict string)) layer_name (w : world) :
  load_layer FM1 layer_name (shapefile_path layer_name) w
  = load_layer FM2 layer_name (shapefile_path layer_name) w ->
  get_geodata FM1 AVAILABLE_LAYERS layer_name w
  = get_geodata FM2 AVAILABLE_LAYERS layer_name w.
Proof.
  intros Hload. unfold get_geodata.
  destruct (bool_decide (layer_name ∈ AVAILABLE_LAYERS)); simpl; [| reflexivity].
  cbv beta iota delta [bind cache_lookup try_except].
  destruct (geodata_cache w !! layer_name); [reflexivity |].
  rewrite Hload. reflexivity.
Qed.

(** X15. Only the layer's own entry of the registry matters to a request:
    two registries that agree on the layer give the same response and the
    same world. *)
Theorem X15_only_the_layers_own_policy_matters (FM1 FM2 : dict (dict string))
    (layer_name : string) (w : world) :
  dict_get FM1 layer_name = dict_get FM2 layer_name ->
  get_geodata FM1 AVAILABLE_LAYERS layer_name w
  = get_geodata FM2 AVAILABLE_LAYERS layer_name w.
Proof.
  intros Hsame. apply get_geodata_load_ext.
  rewrite !load_layer_run, Hsame. reflexivity.
Qed.

(** X14. A layer registered with an empty policy is served exactly like a
    layer that is not registered. *)
Theorem X14_empty_policy_is_no_policy (FM1 FM2 : dict (dict string))
    (layer_name : string) (w : world) :
  dict_get FM1 layer_name = Some [] ->
  dict_get FM2 layer_name = None ->
  get_geodata FM1 AVAILABLE_LAYERS layer_name w
  = get_geodata FM2 AVAILABLE_LAYERS layer_name w.
Proof.
  intros H1 H2. apply get_geodata_load_ext.
  rewrite !load_layer_run, H1, H2. reflexivity.
Qed.

End PolicyFacts.

(** ** The properties above on the small platform *)

Lemma X1_missing_directory_witness :
  discover_shapefiles SHAPEFILE_FOLDER (Toy.boot Toy.nodata)
  = (Ok [], log (Toy.boot Toy.nodata) [EIsdir SHAPEFILE_FOLDER;
                                        EPrint (MsgDirNotFound SHAPEFILE_FOLDER)]) /\
  (exists w, startup Toy.registry (Toy.boot Toy.nodata) = (Ok [], w) /\
             get_layers [] w = (Ok (jsonify (JArr []) 200), w)) /\
  (forall layer_name (w1 : world),
     get_geodata Toy.registry [] layer_name w1
     = (Ok (jsonify (error_body "Layer not found") 404), w1)).
Proof.
  apply (X1_missing_directory (Pl := Toy.platform) Toy.registry Toy.nodata).
  reflexivity.
Defined.

Lemma X2_listing_error_stops_startup_witness :
  startup (Pl := Toy.unlistable) Toy.registry (boot (Pl := Toy.unlistable) Toy.disk0)
  = (Raise "Permission denied",
     log (boot (Pl := Toy.unlistable) Toy.disk0)
         [EIsdir SHAPEFILE_FOLDER; EListdir SHAPEFILE_FOLDER]).
Proof.
  apply (X2_listing_error_stops_startup (Pl := Toy.unlistable) Toy.registry Toy.disk0).
  - reflexivity.
  - reflexivity.
Defined.

Lemma X3_startup_is_lazy_witness :
  exists w, startup Toy.registry (Toy.boot Toy.disk0) = (Ok ["a"; "b"], w) /\
            geodata_cache w = ∅ /\ loads (trace w) = 0%nat.
Proof.
  apply (X3_startup_is_lazy (Pl := Toy.platform) Toy.registry Toy.disk0).
  vm_compute. reflexivity.
Defined.

Lemma X5_one_layer_per_shp_entry_witness :
  exists names,
    fst (discover_shapefiles "data" (Toy.boot Toy.disk0)) = Ok names /\
    length names
    = length (List.filter (fun filename => Str.endswith filename ".shp")
                          ["b.shp"; "notes.txt"; "a.shp"; "a.dbf"]).
Proof.
  apply (X5_one_layer_per_shp_entry (Pl := Toy.platform) "data" (Toy.boot Toy.disk0)).
  - reflexivity.
  - reflexivity.
Defined.

Lemma X6_discovered_file_is_the_one_opened_witness :
  splitext "a.shp" = ("a", ".shp") /\
  (exists names, fst (discover_shapefiles "data" (Toy.boot Toy.disk0)) = Ok names /\
                 "a" ∈ names) /\
  shapefile_path "a" = "data/a.shp".
Proof.
  apply (X6_discovered_file_is_the_one_opened (Pl := Toy.platform) "data"
           (Toy.boot Toy.disk0) ["b.shp"; "notes.txt"; "a.shp"; "a.dbf"] "a").
  - reflexivity.
  - reflexivity.
  - reflexivity.
  - reflexivity.
  - by_computation.
Defined.

Lemma X8_copy_failure_is_tolerated_witness :
  get_geodata Toy.registry Toy.layers "b" (Toy.boot Toy.disk2)
  = (Ok (response_class "[name=Franklin;]" 200 "application/json"),
     {| fs := Toy.disk2;
        geodata_cache := <["b" := "[name=Franklin;]"]> (geodata_cache (Toy.boot Toy.disk2));
        trace := trace (log (Toy.boot Toy.disk2) (mapped_events "b" "data/b.shp" None))
                 ++ [EWrite "b" "[name=Franklin;]";
                     EPrint (MsgSaveError "Permission denied");
                     EPrint (MsgLoaded "b")] |}).
Proof.
  apply (X8_copy_failure_is_tolerated (Pl := Toy.platform) Toy.registry Toy.layers
           "b" "[name=Franklin;]" "Permission denied" (Toy.boot Toy.disk2)
           (log (Toy.boot Toy.disk2) (mapped_events "b" "data/b.shp" None)) Toy.disk2).
  - by_computation.
  - reflexivity.
  - vm_compute. reflexivity.
  - reflexivity.
Defined.

Lemma X9_failure_is_not_cached_witness :
  let w' := snd (get_geodata Toy.registry Toy.layers "b" (Toy.boot Toy.disk0)) in
  let w2 := perform Toy.registry Toy.layers (@FsChange Toy.platform Toy.disk2) w' in
  fst (get_geodata Toy.registry Toy.layers "b" (Toy.boot Toy.disk0))
  = Ok (jsonify (error_body "Could not load data for layer: b") 500) /\
  fst (get_geodata Toy.registry Toy.layers "b" w2)
  = Ok (response_class "[name=Franklin;]" 200 "application/json").
Proof.
  intros w' w2. split; [vm_compute; reflexivity |].
  apply (X9_failure_is_not_cached (Pl := Toy.platform) Toy.registry Toy.layers
           "b" "[name=Franklin;]" (Toy.boot Toy.disk0) w'
           (jsonify (error_body "Could not load data for layer: b") 500) Toy.disk2).
  - vm_compute. reflexivity.
  - reflexivity.
  - vm_compute. reflexivity.
Defined.

Lemma X11_missing_field_is_omitted_witness :
  dict_get (new_properties [("district", "Senate District #"); ("pop", "Population")]
                           [("district", JStr "12"); ("other", JStr "ignored")])
           "Population" = None.
Proof.
  apply X11_missing_field_is_omitted.
  - intros original_key Hin _.
    rewrite !elem_of_cons, elem_of_nil in Hin.
    destruct Hin as [Heq | [Heq | []]]; [discriminate Heq | injection Heq as ->; reflexivity].
  - discriminate.
Defined.

Lemma X14_empty_policy_is_no_policy_witness :
  get_geodata Toy.registry_empty_b Toy.layers "b" (Toy.boot Toy.disk2)
  = get_geodata Toy.registry Toy.layers "b" (Toy.boot Toy.disk2).
Proof.
  apply (X14_empty_policy_is_no_policy (Pl := Toy.platform)).
  - reflexivity.
  - reflexivity.
Defined.

Lemma X15_only_the_layers_own_policy_matters_witness :
  get_geodata Toy.registry Toy.layers "a" (Toy.boot Toy.disk2)
  = get_geodata Toy.registry_with_b Toy.layers "a" (Toy.boot Toy.disk2).
Proof.
  apply (X15_only_the_layers_own_policy_matters (Pl := Toy.platform)).
  reflexivity.
Defined.
